(** * AO collector: the tender normalizer, the client-side filters,
      the column-visibility state and the report aggregator.

    The development embeds the TypeScript sources of the collector's
    front end (the two generations of [App.tsx]) as Rocq functions and
    proves the properties the specification states about them.  The
    report end points ([/report/categories], [/report/keywords]) are
    served by the Python back end; they are modelled from the
    specification in [Module Backend].

    Conventions.
    - A JS string is a [string], a sequence of code units.  The string
      methods whose result depends on the Unicode tables of the engine
      ([toLowerCase], [toUpperCase], [trim], [split(/\s+/)]) are the
      methods of a [Host]; every statement holds for every host.  The
      examples are evaluated on [AsciiText.ascii_host], which is what
      every engine does on ASCII text.
    - A JS number is an IEEE-754 binary64 value, [spec_float].
    - A JS object read as a dictionary is a [gmap string JsVal].
    - [Array.prototype.sort] is stable; it is modelled by a stable
      insertion sort driven by the comparator of the source. *)

From Stdlib Require Import ZArith List Bool Ascii String Lia Sorted Permutation.
From Stdlib Require Import Floats.SpecFloat.
From stdpp Require Import base option list strings gmap sets.

Local Open Scope Z_scope.

(* ===================================================================== *)
(** * JavaScript values and string primitives                             *)
(* ===================================================================== *)

Module Js.

(** binary64 parameters *)
Definition prec : Z := 53.
Definition emax : Z := 1024.

Definition number := spec_float.

(** The double nearest to an integer literal. *)
Definition num_of_Z (z : Z) : number := binary_normalize prec emax z 0 false.

Definition one : number := Eval vm_compute in num_of_Z 1.
Definition two : number := Eval vm_compute in num_of_Z 2.
Definition neg_infinity : number := S754_infinity true.

(** [a === b], [a > b] on numbers. *)
Definition num_eq (a b : number) : bool := SFeqb a b.
Definition num_gt (a b : number) : bool := SFltb b a.

(** Values a JSON payload can put in a field.  [JRef] stands for a nested
    array or object: it is truthy and never inspected by the code below. *)
Inductive JsVal : Type :=
| JUndefined
| JNull
| JBool (b : bool)
| JNum (n : number)
| JStr (s : string)
| JRef.

(** ToBoolean *)
Definition truthy (v : JsVal) : bool :=
  match v with
  | JUndefined | JNull => false
  | JBool b => b
  | JNum n =>
      match n with
      | S754_zero _ | S754_nan => false
      | _ => true
      end
  | JStr s => negb (String.eqb s "")
  | JRef => true
  end.

(** [typeof v === "boolean"] *)
Definition is_boolean (v : JsVal) : bool :=
  match v with JBool _ => true | _ => false end.

(** [v === n] for a number literal [n], [v === s] for a string literal. *)
Definition strict_eq_num (v : JsVal) (n : number) : bool :=
  match v with JNum m => num_eq m n | _ => false end.

Definition strict_eq_str (v : JsVal) (s : string) : bool :=
  match v with JStr t => String.eqb t s | _ => false end.

(** The string methods that depend on the Unicode tables of the engine:
    [s.toLowerCase()], [s.toUpperCase()], [s.trim()] and [s.split(/\s+/)],
    with the three facts on them the proofs use: lower-casing maps the empty
    string, and only it, to the empty string; trimming the empty string gives
    the empty string; trimming is idempotent. *)
Class Host : Type := {
  toLowerCase : string -> string;
  toUpperCase : string -> string;
  trim : string -> string;
  split_ws : string -> list string;
  toLowerCase_nil : forall s, toLowerCase s = EmptyString <-> s = EmptyString;
  trim_nil : trim EmptyString = EmptyString;
  trim_trim : forall s, trim (trim s) = trim s
}.

(** [s.includes(q)] *)
Fixpoint includes (s q : string) : bool :=
  String.prefix q s ||
  match s with
  | EmptyString => false
  | String _ s' => includes s' q
  end.

(** [s > t] and [s === t] on strings: code-unit order. *)
Definition str_gt (s t : string) : bool := String.ltb t s.
Definition str_eq (s t : string) : bool := String.eqb s t.

(** Exceptions: the only one the modelled code can raise is the
    [TypeError] of a property read on [null] / [undefined]. *)
Inductive JsError : Type := TypeError.

Inductive result (A : Type) : Type :=
| Ok (a : A)
| Throw (e : JsError).
Arguments Ok {A} a.
Arguments Throw {A} e.

Definition bind {A B : Type} (c : result A) (k : A -> result B) : result B :=
  match c with
  | Ok a => k a
  | Throw e => Throw e
  end.

(** Stable insertion sort driven by a JS comparator [cmp a b] (negative:
    [a] first; positive: [b] first; zero: keep the input order). *)
Section Sort.
Context {A : Type}.
Variable cmp : A -> A -> Z.

Fixpoint insert_by (x : A) (l : list A) : list A :=
  match l with
  | [] => [x]
  | y :: l' => if (cmp x y <=? 0)%Z then x :: l else y :: insert_by x l'
  end.

Fixpoint sort_by (l : list A) : list A :=
  match l with
  | [] => []
  | x :: l' => insert_by x (sort_by l')
  end.
End Sort.

End Js.

Notation "'let*' x ':=' c 'in' k" := (Js.bind c (fun x => k))
  (at level 10, x name, c at level 100, k at level 200).

(* ===================================================================== *)
(** * The string methods on ASCII text                                    *)
(* ===================================================================== *)

(** What every engine computes on strings of ASCII characters; the host
    the examples are evaluated on. *)
Module AsciiText.

(** The ASCII white space of [trim] and of the class [\s]. *)
Definition is_ws (c : ascii) : bool :=
  match N_of_ascii c with
  | 9%N | 10%N | 11%N | 12%N | 13%N | 32%N => true
  | _ => false
  end.

Fixpoint trimStart (s : string) : string :=
  match s with
  | EmptyString => EmptyString
  | String c s' => if is_ws c then trimStart s' else s
  end.

Fixpoint trimEnd (s : string) : string :=
  match s with
  | EmptyString => EmptyString
  | String c s' =>
      match trimEnd s' with
      | EmptyString => if is_ws c then EmptyString else String c EmptyString
      | r => String c r
      end
  end.

Definition trim (s : string) : string := trimEnd (trimStart s).

Definition lower_char (c : ascii) : ascii :=
  let n := N_of_ascii c in
  if ((65 <=? n) && (n <=? 90))%N then ascii_of_N (n + 32) else c.

Definition upper_char (c : ascii) : ascii :=
  let n := N_of_ascii c in
  if ((97 <=? n) && (n <=? 122))%N then ascii_of_N (n - 32) else c.

Fixpoint map_chars (f : ascii -> ascii) (s : string) : string :=
  match s with
  | EmptyString => EmptyString
  | String c s' => String (f c) (map_chars f s')
  end.

Definition toLowerCase : string -> string := map_chars lower_char.
Definition toUpperCase : string -> string := map_chars upper_char.

(** [s.split(/\s+/)]: the pieces between the maximal runs of white space,
    empty pieces at either end included. *)
Fixpoint split_ws_go (cur : string) (in_ws : bool) (s : string) : list string :=
  match s with
  | EmptyString => [String.rev cur]
  | String c s' =>
      if is_ws c
      then (if in_ws then split_ws_go cur true s'
            else String.rev cur :: split_ws_go EmptyString true s')
      else split_ws_go (String c (if in_ws then EmptyString else cur)) false s'
  end.

Definition split_ws (s : string) : list string := split_ws_go EmptyString false s.

Definition ascii_host : Js.Host.
Proof.
  refine {| Js.toLowerCase := toLowerCase;
            Js.toUpperCase := toUpperCase;
            Js.trim := trim;
            Js.split_ws := split_ws |}.
  - intros s. destruct s; simpl; split; intros H; (reflexivity || discriminate).
  - reflexivity.
  - assert (Hcons : forall c s,
        trimEnd (String c s) =
        match trimEnd s with
        | EmptyString => if is_ws c then EmptyString else String c EmptyString
        | r => String c r
        end) by reflexivity.
    assert (Hend : forall s, trimEnd (trimEnd s) = trimEnd s).
    { induction s as [|c s IH]; [reflexivity |].
      rewrite Hcons. destruct (trimEnd s) as [|d r] eqn:Ht.
      - destruct (is_ws c) eqn:Hc; [reflexivity |].
        rewrite Hcons. cbn [trimEnd]. now rewrite Hc.
      - rewrite Hcons, IH. reflexivity. }
    assert (Hstart : forall s,
        trimStart s = EmptyString
        \/ exists c r, trimStart s = String c r /\ is_ws c = false).
    { induction s as [|c s IH]; simpl; [now left |].
      destruct (is_ws c) eqn:Hc; [exact IH | right; eauto]. }
    intros s. unfold trim.
    destruct (Hstart s) as [-> | (c & r & -> & Hc)]; [reflexivity |].
    assert (Hhead : exists r', trimEnd (String c r) = String c r').
    { rewrite Hcons. destruct (trimEnd r); rewrite ?Hc; eauto. }
    destruct Hhead as [r' Hr]. rewrite Hr.
    cbn [trimStart]. rewrite Hc, <- Hr. apply Hend.
Defined.

End AsciiText.

(* ===================================================================== *)
(** * The collector front end: normalizer and fallback filter            *)
(* ===================================================================== *)

Module Collector.
Import Js.

(** An element of [data.items]: [null], or a record read as a dictionary.
    (A primitive or an array in that position has none of the probed keys:
    every read gives [undefined], as for the empty record.) *)
Inductive JsonItem : Type :=
| ItemNull
| ItemRecord (fields : gmap string JsVal).

(** [raw.k] *)
Definition get_prop (raw : JsonItem) (k : string) : result JsVal :=
  match raw with
  | ItemNull => Throw TypeError
  | ItemRecord fields => Ok (default JUndefined (fields !! k))
  end.

(** The shape [interface Tender] declares, over the type of the identifier
    and the type of the text fields.  [Tender] is the declared interface;
    [RuntimeTender] is what [normalizeTender] holds at run time, where a
    field keeps whatever JSON value the feed carried. *)
Record TenderOf (N S : Type) : Type := mkTender {
  id : N;
  titre : S;
  acheteur : S;
  pays : S;
  region : S;
  date_publication : S;
  date_cloture : S;
  portail : S;
  lien : S;
  est_ats : bool
}.
Arguments mkTender {N S}.
Arguments id {N S}.
Arguments titre {N S}.
Arguments acheteur {N S}.
Arguments pays {N S}.
Arguments region {N S}.
Arguments date_publication {N S}.
Arguments date_cloture {N S}.
Arguments portail {N S}.
Arguments lien {N S}.
Arguments est_ats {N S}.

Definition Tender : Type := TenderOf number string.
Definition RuntimeTender : Type := TenderOf JsVal JsVal.

(** The alias lists, in the order [normalizeTender] probes them. *)
Definition titre_aliases : list string := ["titre"; "title"].
Definition acheteur_aliases : list string := ["acheteur"; "buyer"].
Definition pays_aliases : list string := ["pays"; "country"].
Definition region_aliases : list string := ["region"].
Definition date_publication_aliases : list string := ["date_publication"; "published_at"].
Definition date_cloture_aliases : list string := ["date_cloture"].
Definition portail_aliases : list string := ["portail"; "portal_name"; "source"].
Definition lien_aliases : list string := ["lien"; "url"].

(** [raw.k1 || raw.k2 || ... || ""], with the short circuit of [||]. *)
Fixpoint probe (raw : JsonItem) (aliases : list string) : result JsVal :=
  match aliases with
  | [] => Ok (JStr "")
  | k :: ks =>
      let* v := get_prop raw k in
      if truthy v then Ok v else probe raw ks
  end.

(** [typeof raw.est_ats === "boolean" ? raw.est_ats
       : raw.est_ats === 1 || raw.est_ats === "1"], then [Boolean(..)]. *)
Definition est_ats_of (v : JsVal) : bool :=
  match v with
  | JBool b => b
  | _ => strict_eq_num v one || strict_eq_str v "1"
  end.

Definition normalizeTender (raw : JsonItem) : result RuntimeTender :=
  let* titre := probe raw titre_aliases in
  let* acheteur := probe raw acheteur_aliases in
  let* pays := probe raw pays_aliases in
  let* region := probe raw region_aliases in
  let* date_publication := probe raw date_publication_aliases in
  let* date_cloture := probe raw date_cloture_aliases in
  let* portail := probe raw portail_aliases in
  let* lien := probe raw lien_aliases in
  let* flag := get_prop raw "est_ats" in
  let* ident := get_prop raw "id" in
  Ok (mkTender ident titre acheteur pays region date_publication
        date_cloture portail lien (est_ats_of flag)).

(** [type SearchField = "title_buyer" | "title" | "buyer"] *)
Inductive SearchField : Type := title_buyer | title | buyer.

(** [s || ""] on a string. *)
Definition or_empty (s : string) : string :=
  if String.eqb s "" then "" else s.

(** The state [visibleTenders] depends on. *)
Record FilterState : Type := mkFilterState {
  portalFilter : string;
  countryFilter : string;
  atsOnly : bool;
  query : string;
  searchField : SearchField
}.

Section Hosted.
Context {host : Host}.

Definition hit (q : string) (s : string) : bool :=
  includes (toLowerCase (or_empty s)) q.

Definition visibleTenders (tenders : list Tender) (st : FilterState) : list Tender :=
  let list := tenders in
  let list :=
    if negb (str_eq (portalFilter st) "ALL")
    then List.filter (fun t => str_eq (trim (or_empty (portail t))) (portalFilter st)) list
    else list in
  let list :=
    if negb (str_eq (countryFilter st) "ALL")
    then List.filter (fun t => str_eq (trim (or_empty (pays t))) (countryFilter st)) list
    else list in
  let list := if atsOnly st then List.filter (fun t => est_ats t) list else list in
  let q := toLowerCase (trim (query st)) in
  if String.eqb q "" then list
  else
    List.filter
      (fun t =>
         match searchField st with
         | title => hit q (titre t)
         | buyer => hit q (acheteur t)
         | title_buyer => hit q (titre t) || hit q (acheteur t)
         end)
      list.

(** [normalized.sort((a, b) =>
       (b.date_publication || "").localeCompare(a.date_publication || ""))]
    in [fetchTenders]; [localeCompare] is the collation of the host's
    locale and stays a parameter. *)
Definition sortByPublication (localeCompare : string -> string -> Z)
    (normalized : list Tender) : list Tender :=
  sort_by
    (fun a b => localeCompare (or_empty (date_publication b)) (or_empty (date_publication a)))
    normalized.

End Hosted.

End Collector.

(* ===================================================================== *)
(** * The dashboard front end ([frontend/src/App.tsx])                    *)
(* ===================================================================== *)

Module Dashboard.
Import Js.

(** [type Tender]; a [T | null] field is an [option]. *)
Record Tender : Type := mkTender {
  id : number;
  source : string;
  portal : string;
  country : option string;
  region : option string;
  buyer : option string;
  title : string;
  url : string;
  published_at : option string;
  closing_at : option string;
  budget : option number;
  category : option string;
  matched_keywords : option string;
  score : option number
}.

Inductive ColumnKey : Type :=
| col_id | col_title | col_portal | col_source | col_buyer | col_country
| col_region | col_budget | col_published_at | col_closing_at | col_score.

Inductive QuickField : Type :=
| qf_title | qf_buyer | qf_portal | qf_source | qf_country | qf_region
| qf_category | qf_matched_keywords.

Inductive Direction : Type := asc | desc.

Record SortState : Type := mkSortState {
  key : ColumnKey;
  direction : Direction
}.

Inductive Align : Type := align_left | align_center | align_right.

Record Column : Type := mkColumn {
  col_key : ColumnKey;
  label : string;
  align : option Align;
  locked : option bool
}.

Definition ALL_COLUMNS : list Column :=
  [ mkColumn col_id "ID" (Some align_left) (Some true);
    mkColumn col_title "Titre" (Some align_left) (Some true);
    mkColumn col_portal "Portail" None None;
    mkColumn col_source "Source" None None;
    mkColumn col_buyer "Acheteur" None None;
    mkColumn col_country "Pays" (Some align_center) None;
    mkColumn col_region "Région" (Some align_center) None;
    mkColumn col_budget "Budget" (Some align_right) None;
    mkColumn col_published_at "Publiée" (Some align_center) None;
    mkColumn col_closing_at "Fermeture" (Some align_center) None;
    mkColumn col_score "Score" (Some align_right) None ].

#[global] Instance ColumnKey_eq_dec : EqDecision ColumnKey.
Proof. solve_decision. Defined.

Definition ColumnKey_to_nat (k : ColumnKey) : nat :=
  match k with
  | col_id => 0 | col_title => 1 | col_portal => 2 | col_source => 3
  | col_buyer => 4 | col_country => 5 | col_region => 6 | col_budget => 7
  | col_published_at => 8 | col_closing_at => 9 | col_score => 10
  end%nat.

Definition ColumnKey_of_nat (n : nat) : option ColumnKey :=
  match n with
  | 0 => Some col_id | 1 => Some col_title | 2 => Some col_portal
  | 3 => Some col_source | 4 => Some col_buyer | 5 => Some col_country
  | 6 => Some col_region | 7 => Some col_budget | 8 => Some col_published_at
  | 9 => Some col_closing_at | 10 => Some col_score | _ => None
  end%nat.

#[global] Instance ColumnKey_countable : Countable ColumnKey.
Proof.
  refine (inj_countable ColumnKey_to_nat ColumnKey_of_nat _).
  intros k. destruct k; reflexivity.
Defined.

(** The initial state of [visibleColumns]. *)
Definition initialColumns : gset ColumnKey :=
  {[ col_id; col_title; col_portal; col_source; col_buyer; col_country;
     col_budget; col_published_at ]}.

(** [colMeta?.locked], as a condition. *)
Definition is_locked (k : ColumnKey) : bool :=
  match List.find (fun c => bool_decide (col_key c = k)) ALL_COLUMNS with
  | Some c => default false (locked c)
  | None => false
  end.

(** [toggleColumn(key)], as the function from the previous state of
    [visibleColumns] to the next one. *)
Definition toggleColumn (k : ColumnKey) (prev : gset ColumnKey) : gset ColumnKey :=
  if is_locked k then prev
  else if bool_decide (k ∈ prev) then prev ∖ {[ k ]} else prev ∪ {[ k ]}.

Definition isColumnVisible (visibleColumns : gset ColumnKey) (k : ColumnKey) : bool :=
  bool_decide (k ∈ visibleColumns).

(** The initial state of [sortState]. *)
Definition initialSort : SortState := mkSortState col_published_at desc.

Definition handleSort (k : ColumnKey) (prev : SortState) : SortState :=
  if bool_decide (key prev = k)
  then mkSortState k (match direction prev with asc => desc | desc => asc end)
  else mkSortState k asc.

(** [(a as any)[key]] for the text columns and for the numeric ones. *)
Definition text_of (t : Tender) (k : ColumnKey) : option string :=
  match k with
  | col_title => Some (title t)
  | col_portal => Some (portal t)
  | col_source => Some (source t)
  | col_buyer => buyer t
  | col_country => country t
  | col_region => region t
  | col_published_at => published_at t
  | col_closing_at => closing_at t
  | col_id | col_budget | col_score => None
  end.

Definition num_of (t : Tender) (k : ColumnKey) : option number :=
  match k with
  | col_id => Some (id t)
  | col_budget => budget t
  | col_score => score t
  | _ => None
  end.

(** [(t as any)[quickField]] *)
Definition quick_of (t : Tender) (f : QuickField) : option string :=
  match f with
  | qf_title => Some (title t)
  | qf_buyer => buyer t
  | qf_portal => Some (portal t)
  | qf_source => Some (source t)
  | qf_country => country t
  | qf_region => region t
  | qf_category => category t
  | qf_matched_keywords => matched_keywords t
  end.

(** [v || ""] on a [string | null]. *)
Definition or_empty (v : option string) : string :=
  match v with
  | Some s => if String.eqb s "" then "" else s
  | None => ""
  end.

(** [v ?? ""] *)
Definition nullish_empty (v : option string) : string := default "" v.

Section Hosted.
Context {host : Host}.

(** The comparator handed to [rows.sort]. *)
Definition compareRows (st : SortState) (a b : Tender) : Z :=
  let dir := match direction st with asc => 1 | desc => -1 end in
  match key st with
  | col_published_at | col_closing_at =>
      let sa := or_empty (text_of a (key st)) in
      let sb := or_empty (text_of b (key st)) in
      if str_eq sa sb then 0 else if str_gt sa sb then dir else - dir
  | col_id | col_budget | col_score =>
      let na := match num_of a (key st) with None => neg_infinity | Some n => n end in
      let nb := match num_of b (key st) with None => neg_infinity | Some n => n end in
      if num_eq na nb then 0 else if num_gt na nb then dir else - dir
  | _ =>
      let sa := toLowerCase (or_empty (text_of a (key st))) in
      let sb := toLowerCase (or_empty (text_of b (key st))) in
      if str_eq sa sb then 0 else if str_gt sa sb then dir else - dir
  end.

(** The state [filteredTenders] depends on. *)
Record ViewState : Type := mkViewState {
  countryFilter : string;
  portalFilter : string;
  query : string;
  quickField : QuickField;
  quickValue : string;
  sortState : SortState
}.

Definition initialView : ViewState :=
  mkViewState "ALL" "ALL" "" qf_title "" initialSort.

(** [query.split(/\s+/).map(t => t.toLowerCase()).filter(Boolean)] *)
Definition terms_of (q : string) : list string :=
  List.filter (fun t => negb (String.eqb t "")) (List.map toLowerCase (split_ws q)).

Definition matchesTerm (t : Tender) (term : string) : bool :=
  let title := toLowerCase (or_empty (Some (title t))) in
  let buyer := toLowerCase (or_empty (buyer t)) in
  let source := toLowerCase (or_empty (Some (source t))) in
  let portal := toLowerCase (or_empty (Some (portal t))) in
  includes title term || includes buyer term || includes source term
  || includes portal term.

(** The rows before [rows.sort]. *)
Definition filterRows (tenders : list Tender) (st : ViewState) : list Tender :=
  let rows := tenders in
  let rows :=
    if negb (str_eq (countryFilter st) "ALL")
    then List.filter
           (fun t => str_eq (toUpperCase (or_empty (country t)))
                            (toUpperCase (countryFilter st))) rows
    else rows in
  let rows :=
    if negb (str_eq (portalFilter st) "ALL")
    then List.filter
           (fun t => str_eq (toUpperCase (portal t)) (toUpperCase (portalFilter st))
                     || str_eq (toUpperCase (source t)) (toUpperCase (portalFilter st)))
           rows
    else rows in
  let rows :=
    if negb (String.eqb (trim (query st)) "")
    then let terms := terms_of (query st) in
         List.filter (fun t => forallb (matchesTerm t) terms) rows
    else rows in
  let rows :=
    if negb (String.eqb (trim (quickValue st)) "")
    then let v := toLowerCase (trim (quickValue st)) in
         List.filter
           (fun t => includes (toLowerCase (nullish_empty (quick_of t (quickField st)))) v)
           rows
    else rows in
  rows.

Definition filteredTenders (tenders : list Tender) (st : ViewState) : list Tender :=
  sort_by (compareRows (sortState st)) (filterRows tenders st).

(** The query strings [fetchTenders] builds: a [URLSearchParams] is an
    ordered list of pairs ([set] on a fresh key appends). *)
Definition filterParams (countryFilter portalFilter query : string)
  : list (string * string) :=
  (if negb (String.eqb countryFilter "") && negb (str_eq countryFilter "ALL")
   then [("country", countryFilter)] else [])
  ++ (if negb (String.eqb portalFilter "") && negb (str_eq portalFilter "ALL")
      then [("portal", portalFilter)] else [])
  ++ (if negb (String.eqb (trim query) "") then [("q", trim query)] else []).

Definition tendersParams (countryFilter portalFilter query : string)
  : list (string * string) :=
  ("limit", "200") :: filterParams countryFilter portalFilter query.

Definition reportParams (countryFilter portalFilter query : string)
  : list (string * string) :=
  filterParams countryFilter portalFilter query
  ++ [("top_n", "5"); ("max_rows", "5000")].

End Hosted.

End Dashboard.

(* ===================================================================== *)
(** * The query surface of the back end                                   *)
(* ===================================================================== *)

Module Backend.
Import Js.

(** Modelled from the spec: the persisted Tender of section 3 (the Python
    back end that stores it is not part of the sources at hand).  Dates
    are day numbers, "a single date representation or null". *)
Record Tender : Type := mkTender {
  id : Z;
  natural_key : string;
  portal : string;
  title : string;
  buyer : string;
  country : string;
  region : string;
  url : string;
  published_at : option Z;
  closing_at : option Z;
  budget : option Z;
  category : string;
  matched_keywords : list string;
  score : Z;
  first_seen_at : Z;
  last_seen_at : Z
}.

(** Modelled from the spec: the values of [closing_window] and of
    [search_field] (section 4.4). *)
Inductive ClosingWindow : Type := any | lt_7d | lt_30d | expired.
Inductive SearchField : Type := title_only | buyer_only | title_buyer.

(** Modelled from the spec: the filter configuration of section 4.4, with
    its recognised options. *)
Record Filter : Type := mkFilter {
  f_country : string;
  f_portal : string;
  date_from : option Z;
  date_to : option Z;
  closing_window : ClosingWindow;
  f_query : string;
  search_field : SearchField;
  ats_only : bool
}.

(** Modelled from the spec: "exact match or ALL", for [country] and
    [portal]. *)
Definition exact_or_all (opt value : string) : bool :=
  String.eqb opt "ALL" || String.eqb value opt.

(** Modelled from the spec: [date_from] / [date_to], bounds on
    published_at; a tender without a date passes only when no bound is set. *)
Definition in_dates (lo hi : option Z) (d : option Z) : bool :=
  match lo, hi, d with
  | None, None, _ => true
  | _, _, None => false
  | _, _, Some p =>
      match lo with Some a => (a <=? p) | None => true end
      && match hi with Some b => (p <=? b) | None => true end
  end.

(** Modelled from the spec: [closing_window], bounds relative to
    closing_at and the current time, in days. *)
Definition in_window (now : Z) (w : ClosingWindow) (c : option Z) : bool :=
  match w, c with
  | any, _ => true
  | _, None => false
  | lt_7d, Some d => (now <=? d) && (d <? now + 7)
  | lt_30d, Some d => (now <=? d) && (d <? now + 30)
  | expired, Some d => d <? now
  end.

Section Hosted.
Context {host : Host}.

(** Modelled from the spec: [query] text against the field(s)
    [search_field] names, case-insensitive substring match. *)
Definition text_match (q : string) (f : SearchField) (t : Tender) : bool :=
  let needle := toLowerCase (trim q) in
  if String.eqb needle "" then true
  else
    match f with
    | title_only => includes (toLowerCase (title t)) needle
    | buyer_only => includes (toLowerCase (buyer t)) needle
    | title_buyer =>
        includes (toLowerCase (title t)) needle
        || includes (toLowerCase (buyer t)) needle
    end.

(** Modelled from the spec: the one predicate the filter engine of
    section 4.4 produces from a configuration; [now] is the current time
    the closing window is relative to. *)
Definition matches (now : Z) (F : Filter) (t : Tender) : bool :=
  exact_or_all (f_country F) (country t)
  && exact_or_all (f_portal F) (portal t)
  && in_dates (date_from F) (date_to F) (published_at t)
  && in_window now (closing_window F) (closing_at t)
  && text_match (f_query F) (search_field F) t
  && (if ats_only F then String.eqb (category t) "ATS" else true).

(** Modelled from the spec: the filtered collection both read paths
    work on. *)
Definition filtered (now : Z) (F : Filter) (store : list Tender) : list Tender :=
  List.filter (matches now F) store.

(** Modelled from the spec: [limit] and [top_n]; [None] is "unlimited" /
    "not truncated". *)
Definition truncate {A : Type} (n : option nat) (l : list A) : list A :=
  match n with
  | None => l
  | Some k => take k l
  end.

(** Modelled from the spec: the default sort, published_at descending, a
    tender without a date last. *)
Definition by_published_desc (a b : Tender) : Z :=
  match published_at a, published_at b with
  | Some x, Some y => if (y <? x) then -1 else if (x <? y) then 1 else 0
  | Some _, None => -1
  | None, Some _ => 1
  | None, None => 0
  end.

(** Modelled from the spec: [listTenders(filter, limit)] of section 6,
    with its default sort. *)
Definition listTenders (now : Z) (F : Filter) (limit : option nat)
    (store : list Tender) : list Tender :=
  truncate limit (sort_by by_published_desc (filtered now F store)).

(** Modelled from the spec: the dimension selector of section 4.5. *)
Inductive Dimension : Type := by_category | by_keyword | by_portal.

(** Modelled from the spec: the buckets a tender contributes to; one for
    category and portal, one per matched keyword for keyword. *)
Definition bucket_labels (d : Dimension) (t : Tender) : list string :=
  match d with
  | by_category => [category t]
  | by_keyword => matched_keywords t
  | by_portal => [portal t]
  end.

(** Modelled from the spec: a tender counts once in a bucket it
    contributes to. *)
Definition has_label (d : Dimension) (l : string) (t : Tender) : bool :=
  existsb (String.eqb l) (bucket_labels d t).

Definition bucket_count (d : Dimension) (ts : list Tender) (l : string) : nat :=
  length (List.filter (has_label d l) ts).

(** Modelled from the spec: the distinct bucket labels of a collection. *)
Definition distinct_labels (d : Dimension) (ts : list Tender) : list string :=
  remove_dups (flat_map (bucket_labels d) ts).

(** Modelled from the spec: the order of the rows, count descending, ties
    broken by label ascending. *)
Definition bucket_cmp (x y : string * nat) : Z :=
  if (x.2 <? y.2)%nat then 1
  else if (y.2 <? x.2)%nat then -1
  else if String.eqb x.1 y.1 then 0
  else if String.ltb x.1 y.1 then -1 else 1.

(** Modelled from the spec: the ordered (bucket_label, count) rows. *)
Definition buckets (d : Dimension) (ts : list Tender) : list (string * nat) :=
  sort_by bucket_cmp (List.map (fun l => (l, bucket_count d ts l)) (distinct_labels d ts)).

(** Modelled from the spec: the result of a stats query (section 6). *)
Record Report : Type := mkReport {
  total_tenders : nat;
  distinct_bucket_count : nat;
  rows : list (string * nat)
}.

(** Modelled from the spec: the stats aggregator of section 4.5 over the
    filtered collection of section 4.4. *)
Definition stats (d : Dimension) (now : Z) (F : Filter) (top_n : option nat)
    (store : list Tender) : Report :=
  let ts := filtered now F store in
  mkReport (length ts) (length (distinct_labels d ts)) (truncate top_n (buckets d ts)).

(** Modelled from the spec: the three stats entry points of section 6. *)
Definition statsByCategory := stats by_category.
Definition statsByKeyword := stats by_keyword.
Definition statsByPortal := stats by_portal.

(** The sum of the per-bucket counts of a report. *)
Definition sum_counts (r : list (string * nat)) : nat :=
  foldr (fun b acc => (b.2 + acc)%nat) 0%nat r.

End Hosted.

End Backend.

(* ===================================================================== *)
(** * Vocabulary of the statements                                        *)
(* ===================================================================== *)

Module Vocabulary.
Import Js.

Section Hosted.
Context {host : Host}.

(** [q] occurs in [s] as a contiguous substring. *)
Definition is_substring (q s : string) : Prop :=
  exists pre post : string, s = pre +:+ q +:+ post.

(** The order a comparator induces: [a] may stand before [b]. *)
Definition before {A : Type} (cmp : A -> A -> Z) (a b : A) : Prop := cmp a b <= 0.

(** Every element is related to its successor. *)
Definition adjacent_pairs {A : Type} (R : A -> A -> Prop) (l : list A) : Prop :=
  forall (i : nat) (a b : A), l !! i = Some a -> l !! S i = Some b -> R a b.

(** The first truthy value among the aliases of a record, or the empty
    string when there is none. *)
Definition first_truthy (fields : gmap string JsVal) (aliases : list string)
    (v : JsVal) : Prop :=
  (exists pre k post,
      aliases = pre ++ k :: post
      /\ Forall (fun a => truthy (default JUndefined (fields !! a)) = false) pre
      /\ truthy (default JUndefined (fields !! k)) = true
      /\ v = default JUndefined (fields !! k))
  \/ (Forall (fun a => truthy (default JUndefined (fields !! a)) = false) aliases
      /\ v = JStr "").

Definition unresolvable (fields : gmap string JsVal) (aliases : list string) : Prop :=
  Forall (fun a => truthy (default JUndefined (fields !! a)) = false) aliases.

(** The condition [visibleTenders] applies to one tender. *)
Definition keeps (st : Collector.FilterState) (t : Collector.Tender) : bool :=
  (str_eq (Collector.portalFilter st) "ALL"
   || str_eq (trim (Collector.or_empty (Collector.portail t))) (Collector.portalFilter st))
  && (str_eq (Collector.countryFilter st) "ALL"
      || str_eq (trim (Collector.or_empty (Collector.pays t))) (Collector.countryFilter st))
  && (negb (Collector.atsOnly st) || Collector.est_ats t)
  && (let q := toLowerCase (trim (Collector.query st)) in
      String.eqb q ""
      || match Collector.searchField st with
         | Collector.title => Collector.hit q (Collector.titre t)
         | Collector.buyer => Collector.hit q (Collector.acheteur t)
         | Collector.title_buyer =>
             Collector.hit q (Collector.titre t) || Collector.hit q (Collector.acheteur t)
         end).

(** The condition [filteredTenders] applies to one tender. *)
Definition keepsRow (st : Dashboard.ViewState) (t : Dashboard.Tender) : bool :=
  (str_eq (Dashboard.countryFilter st) "ALL"
   || str_eq (toUpperCase (Dashboard.or_empty (Dashboard.country t)))
             (toUpperCase (Dashboard.countryFilter st)))
  && (str_eq (Dashboard.portalFilter st) "ALL"
      || str_eq (toUpperCase (Dashboard.portal t)) (toUpperCase (Dashboard.portalFilter st))
      || str_eq (toUpperCase (Dashboard.source t)) (toUpperCase (Dashboard.portalFilter st)))
  && (String.eqb (trim (Dashboard.query st)) ""
      || forallb (Dashboard.matchesTerm t) (Dashboard.terms_of (Dashboard.query st)))
  && (String.eqb (trim (Dashboard.quickValue st)) ""
      || includes
           (toLowerCase (Dashboard.nullish_empty (Dashboard.quick_of t (Dashboard.quickField st))))
           (toLowerCase (trim (Dashboard.quickValue st)))).

(** A collector tender with the given title, buyer, country and ATS tag. *)
Definition sample_tender (titre acheteur pays : string) (ats : bool)
  : Collector.Tender :=
  Collector.mkTender one titre acheteur pays "" "" "" "" "" ats.

(** A run of [toggleColumn] calls from a state. *)
Definition toggles (ks : list Dashboard.ColumnKey) (s : gset Dashboard.ColumnKey)
  : gset Dashboard.ColumnKey :=
  foldl (fun acc k => Dashboard.toggleColumn k acc) s ks.

(** The published date the dashboard sorts on: [published_at || ""]. *)
Definition published (t : Dashboard.Tender) : string :=
  Dashboard.or_empty (Dashboard.published_at t).

(** count descending, ties by label ascending *)
Definition bucket_le (x y : string * nat) : Prop :=
  (y.2 < x.2)%nat \/ (x.2 = y.2 /\ String.le x.1 y.1).

(** A stored tender with the given identifier and matched keywords. *)
Definition keyword_tender (i : Z) (kws : list string) : Backend.Tender :=
  Backend.mkTender i "" "SEAO" "" "" "CA" "" "" None None None "TI" kws 0 0 0.

(** Seventeen tenders: five match "odoo" and "servicenow", seven "odoo"
    only, three "servicenow" only, two nothing. *)
Definition scenario_store : list Backend.Tender :=
  List.map (fun i => keyword_tender i ["odoo"; "servicenow"]) [1; 2; 3; 4; 5]
  ++ List.map (fun i => keyword_tender i ["odoo"]) [6; 7; 8; 9; 10; 11; 12]
  ++ List.map (fun i => keyword_tender i ["servicenow"]) [13; 14; 15]
  ++ List.map (fun i => keyword_tender i []) [16; 17].

(** The configuration that filters nothing. *)
Definition no_filter : Backend.Filter :=
  Backend.mkFilter "ALL" "ALL" None None Backend.any "" Backend.title_buyer false.

(** The keys of a query string that carry the filter. *)
Definition is_filter_key (p : string * string) : bool :=
  String.eqb p.1 "country" || String.eqb p.1 "portal" || String.eqb p.1 "q".

End Hosted.

End Vocabulary.

(* ===================================================================== *)
(** * Further code of the two front ends                                  *)
(* ===================================================================== *)

(** The small helpers of the collector. *)
Module Helpers.
Import Js.

Definition zero : number := S754_zero false.

(** [Number.isNaN(n)] *)
Definition is_nan (n : number) : bool :=
  match n with S754_nan => true | _ => false end.

(** [Math.min(a, b)] and [Math.max(a, b)]: [NaN] is contagious and
    [-0] is smaller than [+0]. *)
Definition math_min (a b : number) : number :=
  match a, b with
  | S754_nan, _ | _, S754_nan => S754_nan
  | S754_zero sa, S754_zero sb => S754_zero (sa || sb)
  | _, _ => if SFltb b a then b else a
  end.

Definition math_max (a b : number) : number :=
  match a, b with
  | S754_nan, _ | _, S754_nan => S754_nan
  | S754_zero sa, S754_zero sb => S754_zero (sa && sb)
  | _, _ => if SFltb a b then b else a
  end.

Definition clamp01 (n : number) : number :=
  if is_nan n then zero else math_max zero (math_min one n).

(** The doubles the literals 0.35, 0.6 and 0.8 denote. *)
Definition lit_0_35 : number := S754_finite false 6305039478318694 (-54).
Definition lit_0_6 : number := S754_finite false 5404319552844595 (-53).
Definition lit_0_8 : number := S754_finite false 7205759403792794 (-53).

Inductive Tone : Type := bad | warn | info | good.

Definition confidenceTone (c : number) : Tone :=
  let v := clamp01 c in
  if SFltb v lit_0_35 then bad
  else if SFltb v lit_0_6 then warn
  else if SFltb v lit_0_8 then info
  else good.

(** [\d] *)
Definition is_digit (c : ascii) : bool :=
  let n := N_of_ascii c in ((48 <=? n) && (n <=? 57))%N.

Definition is_dash (c : ascii) : bool := (N_of_ascii c =? 45)%N.

(** [s.slice(0, n)] *)
Fixpoint slice_to (n : nat) (s : string) : string :=
  match n, s with
  | S k, String c s' => String c (slice_to k s')
  | _, _ => EmptyString
  end.

(** [/^\d{4}-\d{2}-\d{2}/.test(s)] *)
Definition iso_date_prefix (s : string) : bool :=
  match s with
  | String a (String b (String c (String d (String e (String f (String g
      (String h (String i (String j _))))))))) =>
      is_digit a && is_digit b && is_digit c && is_digit d && is_dash e
      && is_digit f && is_digit g && is_dash h && is_digit i && is_digit j
  | _ => false
  end.

Definition fmtDate (s : string) : string :=
  if String.eqb s "" then ""
  else if iso_date_prefix s then slice_to 10 s
  else s.

End Helpers.

(** The option lists, the selection and the search box of the collector. *)
Module CollectorUi.
Import Js Collector.

Section Hosted.
Context {host : Host}.

(** [set.add(x)] on a [Set] read in insertion order. *)
Definition set_add (x : string) (set : list string) : list string :=
  if bool_decide (x ∈ set) then set else set ++ [x].

(** The loop [for (const t of tenders) { const p = (t.f || "").trim();
    if (p) set.add(p); }] *)
Definition collect (field : Tender -> string) (tenders : list Tender) : list string :=
  foldl
    (fun set t =>
       let p := trim (or_empty (field t)) in
       if negb (String.eqb p "") then set_add p set else set)
    [] tenders.

(** [["ALL", ...Array.from(set).sort((a, b) => a.localeCompare(b))]] *)
Definition portalOptions (localeCompare : string -> string -> Z)
    (tenders : list Tender) : list string :=
  "ALL" :: sort_by localeCompare (collect portail tenders).

Definition countryOptions (localeCompare : string -> string -> Z)
    (tenders : list Tender) : list string :=
  "ALL" :: sort_by localeCompare (collect pays tenders).

(** [selectedTender]: the visible tender with the selected id, else any
    loaded tender with it, else [null]. *)
Definition selectedTender (selectedTenderId : option number)
    (visible tenders : list Tender) : option Tender :=
  match selectedTenderId with
  | None => None
  | Some i =>
      match List.find (fun t => num_eq (id t) i) visible with
      | Some t => Some t
      | None => List.find (fun t => num_eq (id t) i) tenders
      end
  end.

(** The search box: the text being typed and the query in effect. *)
Record SearchState : Type := mkSearchState {
  searchText : string;
  effectiveQuery : string
}.

Definition initialSearch : SearchState := mkSearchState "" "".

(** [onChange={(e) => setSearchText(e.target.value)}] *)
Definition typeText (v : string) (st : SearchState) : SearchState :=
  mkSearchState v (effectiveQuery st).

(** [applySearch]: [const q = searchText.trim(); setQuery(q)] *)
Definition applySearch (st : SearchState) : SearchState :=
  mkSearchState (searchText st) (trim (searchText st)).

(** [resetSearch]: [setSearchText(""); setQuery("")] *)
Definition resetSearch (st : SearchState) : SearchState :=
  mkSearchState "" "".

Inductive SearchEvent : Type :=
| Typed (v : string)
| Applied
| Reset.

Definition searchStep (st : SearchState) (ev : SearchEvent) : SearchState :=
  match ev with
  | Typed v => typeText v st
  | Applied => applySearch st
  | Reset => resetSearch st
  end.

Definition searchRun (evs : list SearchEvent) : SearchState :=
  foldl searchStep initialSearch evs.

End Hosted.

End CollectorUi.

(** The summary line and the table header of the dashboard. *)
Module DashboardUi.
Import Js Dashboard.

Section Hosted.
Context {host : Host}.

(** [t.portal || t.source || ""] *)
Definition portal_or_source (t : Tender) : string :=
  if negb (String.eqb (portal t) "") then portal t
  else if negb (String.eqb (source t) "") then source t
  else "".

(** [t.score || 0] on a tender whose score is not [null]. *)
Definition score_or_zero (t : Tender) : number :=
  match score t with
  | Some n => if truthy (JNum n) then n else Helpers.zero
  | None => Helpers.zero
  end.

Record Summary : Type := mkSummary {
  total : nat;
  portals : nat;
  avgScore : option number
}.

Definition summary (filteredTenders : list Tender) : Summary :=
  let total := length filteredTenders in
  let portals := length (remove_dups (List.map portal_or_source filteredTenders)) in
  let withScore :=
    List.filter (fun t => match score t with Some _ => true | None => false end)
      filteredTenders in
  let avgScore :=
    if negb (Nat.eqb (length withScore) 0)
    then Some (SFdiv prec emax
                 (foldl (fun sum t => SFadd prec emax sum (score_or_zero t))
                    Helpers.zero withScore)
                 (num_of_Z (Z.of_nat (length withScore))))
    else None in
  mkSummary total portals avgScore.

(** [ALL_COLUMNS.filter((c) => isColumnVisible(c.key))] *)
Definition headerColumns (visibleColumns : gset ColumnKey) : list Column :=
  List.filter (fun c => isColumnVisible visibleColumns (col_key c)) ALL_COLUMNS.


(** The number a numeric column is sorted on; [null] is [-Infinity]. *)
Definition sort_number (k : ColumnKey) (t : Tender) : number :=
  match num_of t k with
  | None => neg_infinity
  | Some n => n
  end.

Definition is_numeric (k : ColumnKey) : bool :=
  match k with
  | col_id | col_budget | col_score => true
  | _ => false
  end.

End Hosted.

End DashboardUi.

(** Vocabulary and sample data of the statements on that code. *)
Module Samples.
Import Js.

(** A collation: the code-unit order, as a three-way comparison. *)
Definition code_unit_compare (s t : string) : Z :=
  match String.compare s t with
  | Lt => -1
  | Eq => 0
  | Gt => 1
  end.

(** A dashboard row with the given id, title, date and score. *)
Definition sample_row (i : Z) (title : string) (published : option string)
    (score : option number) : Dashboard.Tender :=
  Dashboard.mkTender (num_of_Z i) "SEAO" "SEAO" (Some "CA") None (Some "Ville")
    title "" published None None None None score.

Definition sample_rows : list Dashboard.Tender :=
  [ sample_row 3 "Odoo" (Some "2024-01-05") (Some (num_of_Z 20));
    sample_row 1 "crm" None None;
    sample_row 2 "Audit" (Some "2024-03-01") (Some (num_of_Z 10)) ].

(** A collector tender with the given id, country, portal and date. *)
Definition sample_item (i : Z) (pays portail date : string) : Collector.Tender :=
  Collector.mkTender (num_of_Z i) "AO" "Ville" pays "" date "" portail "" false.

Definition sample_items : list Collector.Tender :=
  [ sample_item 1 " CA " "SEAO" "2024-01-05";
    sample_item 2 "FR" "" "2024-03-01";
    sample_item 3 "CA" "SEAO " "" ].

End Samples.

(** The normalizer seen from its two ends. *)
Module Records.
Import Js Collector.

(** Every key [normalizeTender] reads. *)
Definition probed_keys : list string :=
  titre_aliases ++ acheteur_aliases ++ pays_aliases ++ region_aliases
  ++ date_publication_aliases ++ date_cloture_aliases ++ portail_aliases
  ++ lien_aliases ++ ["est_ats"; "id"].

(** The object [normalizeTender] returns, read as a record again. *)
Definition to_record (t : RuntimeTender) : gmap string JsVal :=
  <["id" := id t]>
  (<["titre" := titre t]>
  (<["acheteur" := acheteur t]>
  (<["pays" := pays t]>
  (<["region" := region t]>
  (<["date_publication" := date_publication t]>
  (<["date_cloture" := date_cloture t]>
  (<["portail" := portail t]>
  (<["lien" := lien t]>
  (<["est_ats" := JBool (est_ats t)]> ∅))))))))).

(** A text field as the normalizer leaves it: truthy, or the empty string. *)
Definition settled (v : JsVal) : Prop := truthy v = true \/ v = JStr "".

End Records.

(* ===================================================================== *)
(** * Facts on strings and on the sort                                    *)
(* ===================================================================== *)

Import Js Vocabulary.

Section StringFacts.

Lemma prefix_app (q s : string) :
  String.prefix q s = true <-> exists post, s = q +:+ post.
Proof.
  revert s. induction q as [|a q IH]; intros s; simpl.
  - split; [intros _; exists s; reflexivity | intros _; destruct s; reflexivity].
  - destruct s as [|b s].
    + split; [discriminate | intros [post H]; discriminate].
    + simpl. destruct (ascii_dec a b) as [->|Hne].
      * rewrite IH. split; intros [post H]; exists post.
        -- cbn. now rewrite H.
        -- cbn in H. now inversion H.
      * split; [discriminate | intros [post H]; cbn in H; inversion H; congruence].
Qed.

Lemma includes_nil (q : string) :
  includes EmptyString q = String.prefix q EmptyString || false.
Proof. reflexivity. Qed.

Lemma includes_cons (c : ascii) (s q : string) :
  includes (String c s) q = String.prefix q (String c s) || includes s q.
Proof. reflexivity. Qed.

Lemma includes_spec (s q : string) :
  includes s q = true <-> is_substring q s.
Proof.
  unfold is_substring. induction s as [|c s IH];
    [rewrite includes_nil | rewrite includes_cons].
  - rewrite orb_false_r, prefix_app. split.
    + intros [post H]. exists EmptyString, post. exact H.
    + intros [pre [post H]]. destruct pre; [exists post; exact H | discriminate].
  - rewrite orb_true_iff, prefix_app, IH. split.
    + intros [[post H] | [pre [post H]]].
      * exists EmptyString, post. exact H.
      * exists (String c pre), post. cbn. now rewrite H.
    + intros [pre [post H]]. destruct pre as [|c' pre].
      * left. exists post. exact H.
      * right. exists pre, post. cbn in H. now inversion H.
Qed.

Lemma includes_false (s q : string) :
  includes s q = false -> ~ is_substring q s.
Proof. intros H Hs. apply includes_spec in Hs. congruence. Qed.

Lemma str_eq_iff (s t : string) : str_eq s t = true <-> s = t.
Proof. apply String.eqb_eq. Qed.

Lemma or_empty_id (s : string) : Collector.or_empty s = s.
Proof.
  unfold Collector.or_empty. destruct (String.eqb_spec s ""); congruence.
Qed.

Lemma str_gt_le (s t : string) : str_gt s t = true -> String.le t s.
Proof.
  unfold str_gt, String.ltb, String.le, String.leb.
  destruct (String.compare t s); simpl; try discriminate; intros _; exact I.
Qed.


End StringFacts.

Section SortFacts.
Context {A : Type}.
Variable cmp : A -> A -> Z.

Lemma insert_by_perm (x : A) (l : list A) : Permutation (x :: l) (insert_by cmp x l).
Proof.
  induction l as [|y l IH]; simpl.
  - apply Permutation_refl.
  - destruct (cmp x y <=? 0).
    + apply Permutation_refl.
    + eapply perm_trans; [apply perm_swap | apply perm_skip, IH].
Qed.

Lemma sort_by_perm (l : list A) : Permutation l (sort_by cmp l).
Proof.
  induction l as [|x l IH]; simpl.
  - apply perm_nil.
  - eapply perm_trans; [apply perm_skip, IH | apply insert_by_perm].
Qed.

Lemma sort_by_In (l : list A) (x : A) : In x (sort_by cmp l) <-> In x l.
Proof.
  split; apply Permutation_in; [symmetry |]; apply sort_by_perm.
Qed.

Lemma sort_by_length (l : list A) : length (sort_by cmp l) = length l.
Proof. symmetry. apply Permutation_length, sort_by_perm. Qed.

(** A comparator that never puts both [a] after [b] and [b] after [a]. *)
Hypothesis cmp_total : forall a b, 0 < cmp a b -> cmp b a <= 0.

Lemma insert_by_HdRel (R := before cmp) (y x : A) (l : list A) :
  R y x -> HdRel R y l -> HdRel R y (insert_by cmp x l).
Proof.
  intros Hyx Hl. destruct l as [|z l]; simpl.
  - constructor. exact Hyx.
  - destruct (cmp x z <=? 0); constructor; [exact Hyx | now inversion Hl].
Qed.

Lemma insert_by_sorted (x : A) (l : list A) :
  Sorted (before cmp) l -> Sorted (before cmp) (insert_by cmp x l).
Proof.
  induction l as [|y l IH]; simpl; intros Hs.
  - repeat constructor.
  - destruct (Z.leb_spec (cmp x y) 0) as [Hle|Hgt].
    + constructor; [exact Hs | constructor; exact Hle].
    + inversion Hs as [|? ? Hs' Hhd]; subst.
      constructor; [apply IH, Hs' |].
      apply insert_by_HdRel; [apply cmp_total, Hgt | exact Hhd].
Qed.

Lemma sort_by_sorted (l : list A) : Sorted (before cmp) (sort_by cmp l).
Proof.
  induction l as [|x l IH]; simpl; [constructor | apply insert_by_sorted, IH].
Qed.

End SortFacts.

Section ListFacts.
Context {A : Type}.

Lemma filter_filter_andb (f g : A -> bool) (l : list A) :
  List.filter f (List.filter g l) = List.filter (fun x => g x && f x) l.
Proof.
  induction l as [|x l IH]; simpl; [reflexivity |].
  destruct (g x); simpl; [destruct (f x) |]; now rewrite IH.
Qed.

Lemma filter_true (l : list A) : List.filter (fun _ => true) l = l.
Proof. induction l as [|x l IH]; simpl; [reflexivity | now rewrite IH]. Qed.

Lemma filter_ext_eq (f g : A -> bool) (l : list A) :
  (forall x, f x = g x) -> List.filter f l = List.filter g l.
Proof.
  intros H. induction l as [|x l IH]; simpl; [reflexivity |].
  now rewrite H, IH.
Qed.

Lemma Sorted_adjacent (R : A -> A -> Prop) (l : list A) :
  Sorted R l -> adjacent_pairs R l.
Proof.
  unfold adjacent_pairs. induction 1 as [|x l Hs IH Hhd]; intros i a b Ha Hb.
  - discriminate.
  - destruct i as [|i]; simpl in *.
    + inversion Ha; subst. destruct l as [|y l]; [discriminate |].
      simpl in Hb. inversion Hb; subst. now inversion Hhd.
    + eapply IH; eassumption.
Qed.

Lemma Sorted_weaken (R S : A -> A -> Prop) (l : list A) :
  (forall a b, R a b -> S a b) -> Sorted R l -> Sorted S l.
Proof.
  intros H. induction 1 as [|x l Hs IH Hhd]; constructor; [exact IH |].
  destruct Hhd; constructor; auto.
Qed.

End ListFacts.

(* ===================================================================== *)
(** * The normalizer                                                      *)
(* ===================================================================== *)

Section NormalizerFacts.
Import Collector.

Lemma probe_record (fields : gmap string JsVal) (aliases : list string) :
  exists v, probe (ItemRecord fields) aliases = Ok v
            /\ first_truthy fields aliases v.
Proof.
  induction aliases as [|k ks IH]; simpl.
  - exists (JStr ""). split; [reflexivity |]. right. split; [constructor | reflexivity].
  - destruct (truthy (default JUndefined (fields !! k))) eqn:Hk.
    + eexists. split; [reflexivity |]. left.
      exists [], k, ks. repeat split; [constructor | exact Hk].
    + destruct IH as [v [Hv Hfirst]]. exists v. split; [exact Hv |].
      destruct Hfirst as [(pre & k' & post & -> & Hpre & Hk' & ->) | [Hall ->]].
      * left. exists (k :: pre), k', post.
        repeat split; [constructor; assumption | exact Hk'].
      * right. split; [constructor; assumption | reflexivity].
Qed.

Lemma first_truthy_unresolvable (fields : gmap string JsVal)
    (aliases : list string) (v : JsVal) :
  first_truthy fields aliases v -> unresolvable fields aliases -> v = JStr "".
Proof.
  intros [(pre & k & post & -> & _ & Hk & _) | [_ ->]] Hun; [| reflexivity].
  unfold unresolvable in Hun. rewrite Forall_app, Forall_cons in Hun.
  destruct Hun as [_ [Hk' _]]. congruence.
Qed.

(** What [normalizeTender] returns on a record, field by field. *)
Lemma normalize_record (fields : gmap string JsVal) :
  exists t, normalizeTender (ItemRecord fields) = Ok t
    /\ first_truthy fields titre_aliases (titre t)
    /\ first_truthy fields acheteur_aliases (acheteur t)
    /\ first_truthy fields pays_aliases (pays t)
    /\ first_truthy fields region_aliases (region t)
    /\ first_truthy fields date_publication_aliases (date_publication t)
    /\ first_truthy fields date_cloture_aliases (date_cloture t)
    /\ first_truthy fields portail_aliases (portail t)
    /\ first_truthy fields lien_aliases (lien t)
    /\ est_ats t = est_ats_of (default JUndefined (fields !! "est_ats"))
    /\ id t = default JUndefined (fields !! "id").
Proof.
  unfold normalizeTender.
  destruct (probe_record fields titre_aliases) as [v1 [-> H1]].
  destruct (probe_record fields acheteur_aliases) as [v2 [-> H2]].
  destruct (probe_record fields pays_aliases) as [v3 [-> H3]].
  destruct (probe_record fields region_aliases) as [v4 [-> H4]].
  destruct (probe_record fields date_publication_aliases) as [v5 [-> H5]].
  destruct (probe_record fields date_cloture_aliases) as [v6 [-> H6]].
  destruct (probe_record fields portail_aliases) as [v7 [-> H7]].
  destruct (probe_record fields lien_aliases) as [v8 [-> H8]].
  eexists. split; [reflexivity |]. simpl. tauto.
Qed.

Lemma est_ats_of_true (v : JsVal) :
  est_ats_of v = true <->
  v = JBool true \/ (exists n, v = JNum n /\ num_eq n one = true) \/ v = JStr "1".
Proof.
  destruct v as [| |b|n|s|]; simpl.
  - split; [discriminate | intros [H|[[n [H _]]|H]]; discriminate].
  - split; [discriminate | intros [H|[[n [H _]]|H]]; discriminate].
  - split; [intros ->; now left | intros [H|[[n [H _]]|H]]; congruence].
  - rewrite orb_false_r. split.
    + intros H. right; left. exists n. split; [reflexivity | exact H].
    + intros [H|[[m [H Hm]]|H]]; try discriminate. now inversion H; subst.
  - split.
    + intros H. right; right. apply String.eqb_eq in H. now subst.
    + intros [H|[[m [H _]]|H]]; try discriminate. now inversion H.
  - split; [discriminate | intros [H|[[n [H _]]|H]]; discriminate].
Qed.

Lemma lookup_default_some (fields : gmap string JsVal) (k : string) (v : JsVal) :
  v <> JUndefined ->
  default JUndefined (fields !! k) = v <-> fields !! k = Some v.
Proof.
  intros Hv. destruct (fields !! k) as [w|]; simpl.
  - split; [intros ->; reflexivity | intros H; now inversion H].
  - split; [intros H; congruence | discriminate].
Qed.

(** C4 (as amended): for each canonical field, [normalizeTender] returns
    the first truthy (for a text value: non-empty) value found by probing
    the field's fixed, ordered alias list, exactly as the record carries it
    (no white space is trimmed); when no alias yields such a value the field
    is the empty string. *)
Theorem normalize_first_non_empty (fields : gmap string JsVal) :
  exists t, normalizeTender (ItemRecord fields) = Ok t
    /\ first_truthy fields ["titre"; "title"] (titre t)
    /\ first_truthy fields ["acheteur"; "buyer"] (acheteur t)
    /\ first_truthy fields ["pays"; "country"] (pays t)
    /\ first_truthy fields ["region"] (region t)
    /\ first_truthy fields ["date_publication"; "published_at"] (date_publication t)
    /\ first_truthy fields ["date_cloture"] (date_cloture t)
    /\ first_truthy fields ["portail"; "portal_name"; "source"] (portail t)
    /\ first_truthy fields ["lien"; "url"] (lien t).
Proof.
  destruct (normalize_record fields) as [t H]. exists t. tauto.
Qed.

(** C5: normalization is total on records: whatever the record, also the
    empty one or one whose aliased fields are absent, empty or [null], the
    normalizer returns a canonical record and raises nothing; a field none of
    whose aliases resolves is the empty string, and an absent [est_ats] is
    [false]. *)
Theorem normalize_total (fields : gmap string JsVal) :
  exists t, normalizeTender (ItemRecord fields) = Ok t
    /\ (forall e, normalizeTender (ItemRecord fields) <> Throw e)
    /\ (unresolvable fields titre_aliases -> titre t = JStr "")
    /\ (unresolvable fields acheteur_aliases -> acheteur t = JStr "")
    /\ (unresolvable fields pays_aliases -> pays t = JStr "")
    /\ (unresolvable fields region_aliases -> region t = JStr "")
    /\ (unresolvable fields date_publication_aliases -> date_publication t = JStr "")
    /\ (unresolvable fields date_cloture_aliases -> date_cloture t = JStr "")
    /\ (unresolvable fields portail_aliases -> portail t = JStr "")
    /\ (unresolvable fields lien_aliases -> lien t = JStr "")
    /\ (fields !! "est_ats" = None -> est_ats t = false).
Proof.
  destruct (normalize_record fields)
    as (t & Ht & H1 & H2 & H3 & H4 & H5 & H6 & H7 & H8 & Hats & _).
  exists t. split; [exact Ht |]. split; [intros e; rewrite Ht; discriminate |].
  repeat split; try (now apply first_truthy_unresolvable).
  intros Hnone. rewrite Hats, Hnone. reflexivity.
Qed.

Lemma normalize_total_witness :
  exists t,
    Collector.normalizeTender
      (Collector.ItemRecord {[ "title" := JStr "AO 1"; "buyer" := JNull ]}) = Ok t
    /\ acheteur t = JStr "" /\ lien t = JStr "" /\ est_ats t = false.
Proof.
  destruct (normalize_total {[ "title" := JStr "AO 1"; "buyer" := JNull ]})
    as (t & Ht & _ & _ & Hb & _ & _ & _ & _ & _ & Hl & Hats).
  exists t. split; [exact Ht |].
  split; [apply Hb; repeat constructor |].
  split; [apply Hl; repeat constructor | apply Hats; reflexivity].
Defined.

(** C9: the normalized [est_ats] is [true] exactly when the raw field is
    the boolean [true], the number 1 or the string "1"; the string "true",
    the number 2, [null] and an absent field all give [false]. *)
Theorem normalize_est_ats (fields : gmap string JsVal) :
  (exists t, normalizeTender (ItemRecord fields) = Ok t
     /\ (est_ats t = true <->
         fields !! "est_ats" = Some (JBool true)
         \/ (exists n, fields !! "est_ats" = Some (JNum n) /\ num_eq n one = true)
         \/ fields !! "est_ats" = Some (JStr "1")))
  /\ est_ats_of (JStr "true") = false
  /\ est_ats_of (JNum two) = false
  /\ est_ats_of JNull = false
  /\ est_ats_of JUndefined = false
  /\ est_ats_of (JBool false) = false.
Proof.
  split; [| repeat split; reflexivity].
  destruct (normalize_record fields) as (t & Ht & _ & _ & _ & _ & _ & _ & _ & _ & Hats & _).
  exists t. split; [exact Ht |]. rewrite Hats, est_ats_of_true.
  rewrite !lookup_default_some by discriminate.
  split.
  - intros [H|[[n [H Hn]]|H]]; [now left | right; left | now right; right].
    exists n. split; [| exact Hn]. now apply lookup_default_some.
  - intros [H|[[n [H Hn]]|H]]; [now left | right; left | now right; right].
    exists n. split; [| exact Hn]. now apply lookup_default_some.
Qed.

End NormalizerFacts.

Section NormalizerExamples.
Import Collector.
#[local] Existing Instance AsciiText.ascii_host.

(** C4, the claim as stated fails: a title with surrounding white space is
    the first non-empty alias value and is returned untrimmed. *)
Lemma normalize_keeps_whitespace :
  exists t, normalizeTender (ItemRecord {[ "titre" := JStr " AO 1 " ]}) = Ok t
    /\ titre t = JStr " AO 1 "
    /\ titre t <> JStr (trim " AO 1 ").
Proof.
  eexists. split; [vm_compute; reflexivity |]. split; [reflexivity |].
  vm_compute. discriminate.
Qed.

End NormalizerExamples.

(* ===================================================================== *)
(** * The fallback filter of the collector                                *)
(* ===================================================================== *)

Section CollectorFilterFacts.
Import Collector.
Context {host : Host}.

Lemma lower_trim_nil : toLowerCase (trim EmptyString) = EmptyString.
Proof. rewrite trim_nil. now apply toLowerCase_nil. Qed.

Lemma filter_when {A : Type} (c : bool) (f : A -> bool) (l : list A) :
  (if c then List.filter f l else l) = List.filter (fun x => negb c || f x) l.
Proof.
  destruct c; simpl; [reflexivity | symmetry; apply filter_true].
Qed.

Lemma filter_unless {A : Type} (c : bool) (f : A -> bool) (l : list A) :
  (if c then l else List.filter f l) = List.filter (fun x => c || f x) l.
Proof.
  destruct c; simpl; [symmetry; apply filter_true | reflexivity].
Qed.

(** [visibleTenders] is one filter by the conjunction of its conditions. *)
Lemma visibleTenders_keeps (tenders : list Tender) (st : FilterState) :
  visibleTenders tenders st = List.filter (keeps st) tenders.
Proof.
  unfold visibleTenders.
  rewrite filter_unless, !filter_when, !filter_filter_andb.
  apply filter_ext_eq. intros t. unfold keeps.
  rewrite !negb_involutive, !andb_assoc. reflexivity.
Qed.

Lemma visibleTenders_In (tenders : list Tender) (st : FilterState) (t : Tender) :
  In t (visibleTenders tenders st) <-> In t tenders /\ keeps st t = true.
Proof. rewrite visibleTenders_keeps. apply filter_In. Qed.


Lemma keeps_split (p c : string) (a : bool) (q : string) (f : SearchField) (t : Tender) :
  keeps (mkFilterState p c a q f) t =
  keeps (mkFilterState p "ALL" false "" f) t
  && keeps (mkFilterState "ALL" c false "" f) t
  && keeps (mkFilterState "ALL" "ALL" a "" f) t
  && keeps (mkFilterState "ALL" "ALL" false q f) t.
Proof.
  unfold keeps; simpl. rewrite lower_trim_nil. simpl.
  rewrite ?andb_true_r, ?andb_true_l. reflexivity.
Qed.

End CollectorFilterFacts.

Section CollectorFilterClaims.
Import Collector CollectorUi.
Context {host : Host}.

Lemma eqb_empty_false (s : string) : s <> EmptyString -> String.eqb s "" = false.
Proof. intros H. now apply String.eqb_neq. Qed.

Lemma visibleTenders_neutral (tenders : list Tender) (f : SearchField) :
  visibleTenders tenders (mkFilterState "ALL" "ALL" false "" f) = tenders.
Proof. unfold visibleTenders; simpl. now rewrite lower_trim_nil. Qed.

Lemma keeps_neutral (f : SearchField) (t : Tender) :
  keeps (mkFilterState "ALL" "ALL" false "" f) t = true.
Proof. unfold keeps; simpl. now rewrite lower_trim_nil. Qed.

Lemma keeps_ats (f : SearchField) (t : Tender) :
  keeps (mkFilterState "ALL" "ALL" true "" f) t = est_ats t.
Proof. unfold keeps; simpl. rewrite lower_trim_nil. simpl. now rewrite andb_true_r. Qed.


(** The query in effect is a fixed point of [trim], one event at a time
    and along any run of events. *)
Lemma searchStep_trimmed (st : SearchState) (ev : SearchEvent) :
  trim (effectiveQuery st) = effectiveQuery st ->
  trim (effectiveQuery (searchStep st ev)) = effectiveQuery (searchStep st ev).
Proof.
  intros H. destruct ev; simpl; [exact H | apply trim_trim | apply trim_nil].
Qed.

Lemma searchRun_trimmed (evs : list SearchEvent) (st : SearchState) :
  trim (effectiveQuery st) = effectiveQuery st ->
  trim (effectiveQuery (foldl searchStep st evs))
  = effectiveQuery (foldl searchStep st evs).
Proof.
  revert st. induction evs as [|ev evs IH]; intros st H; simpl; [exact H |].
  apply IH. now apply searchStep_trimmed.
Qed.



(** C7: with [atsOnly] set, the result holds exactly the ATS-tagged tenders
    of the result without it, so every tender shown is ATS-tagged; with
    [atsOnly] unset the option removes nothing. *)
Theorem visibleTenders_ats_only (tenders : list Tender) (p c q : string)
    (f : SearchField) :
  (forall t,
      In t (visibleTenders tenders (mkFilterState p c true q f)) <->
      In t (visibleTenders tenders (mkFilterState p c false q f)) /\ est_ats t = true)
  /\ Forall (fun t => est_ats t = true)
       (visibleTenders tenders (mkFilterState p c true q f))
  /\ visibleTenders tenders (mkFilterState "ALL" "ALL" false "" f) = tenders.
Proof.
  assert (Hiff : forall t,
      In t (visibleTenders tenders (mkFilterState p c true q f)) <->
      In t (visibleTenders tenders (mkFilterState p c false q f)) /\ est_ats t = true).
  { intros t. rewrite !visibleTenders_In.
    rewrite (keeps_split p c true q f), (keeps_split p c false q f).
    rewrite !andb_true_iff, keeps_neutral, keeps_ats. tauto. }
  split; [exact Hiff |]. split; [| apply visibleTenders_neutral].
  apply Forall_forall. intros t Ht. rewrite list_elem_of_In in Ht.
  now apply Hiff in Ht.
Qed.

End CollectorFilterClaims.

Section CollectorFilterExamples.
Import Collector CollectorUi.
#[local] Existing Instance AsciiText.ascii_host.


End CollectorFilterExamples.

(* ===================================================================== *)
(** * The dashboard: filter and default order                             *)
(* ===================================================================== *)

Section DashboardFacts.
Context {host : Host}.

Lemma filterRows_keepsRow (tenders : list Dashboard.Tender) (st : Dashboard.ViewState) :
  Dashboard.filterRows tenders st = List.filter (keepsRow st) tenders.
Proof.
  unfold Dashboard.filterRows.
  rewrite !filter_when, !filter_filter_andb.
  apply filter_ext_eq. intros t. unfold keepsRow.
  rewrite !negb_involutive, !andb_assoc, !orb_assoc. reflexivity.
Qed.

Lemma filterRows_neutral (tenders : list Dashboard.Tender)
    (qf : Dashboard.QuickField) (ss : Dashboard.SortState) :
  Dashboard.filterRows tenders (Dashboard.mkViewState "ALL" "ALL" "" qf "" ss)
  = tenders.
Proof. unfold Dashboard.filterRows; simpl. now rewrite trim_nil. Qed.

Lemma filteredTenders_In (tenders : list Dashboard.Tender) (st : Dashboard.ViewState)
    (t : Dashboard.Tender) :
  In t (Dashboard.filteredTenders tenders st) <-> In t tenders /\ keepsRow st t = true.
Proof.
  unfold Dashboard.filteredTenders.
  rewrite sort_by_In, filterRows_keepsRow. apply filter_In.
Qed.

Lemma keepsRow_country (c p q : string) (qf : Dashboard.QuickField) (qv : string)
    (ss : Dashboard.SortState) (t : Dashboard.Tender) :
  c <> "ALL" ->
  keepsRow (Dashboard.mkViewState c p q qf qv ss) t = true <->
  keepsRow (Dashboard.mkViewState "ALL" p q qf qv ss) t = true
  /\ toUpperCase (Dashboard.or_empty (Dashboard.country t)) = toUpperCase c.
Proof.
  intros Hc. unfold keepsRow; simpl.
  replace (str_eq c "ALL") with false
    by (symmetry; now apply String.eqb_neq).
  simpl. rewrite !andb_true_iff, str_eq_iff. intuition auto.
Qed.

Lemma keeps_country (p c : string) (a : bool) (q : string)
    (f : Collector.SearchField) (t : Collector.Tender) :
  c <> "ALL" ->
  keeps (Collector.mkFilterState p c a q f) t = true <->
  keeps (Collector.mkFilterState p "ALL" a q f) t = true
  /\ trim (Collector.pays t) = c.
Proof.
  intros Hc. unfold keeps; simpl.
  replace (str_eq c "ALL") with false
    by (symmetry; now apply String.eqb_neq).
  simpl. rewrite !andb_true_iff, str_eq_iff, !or_empty_id. intuition auto.
Qed.

(** The comparator of the initial sort state never disagrees with itself. *)
Lemma compareRows_initial_total (a b : Dashboard.Tender) :
  0 < Dashboard.compareRows Dashboard.initialSort a b ->
  Dashboard.compareRows Dashboard.initialSort b a <= 0.
Proof.
  unfold Dashboard.compareRows; simpl.
  set (sa := Dashboard.or_empty (Dashboard.published_at a)).
  set (sb := Dashboard.or_empty (Dashboard.published_at b)).
  unfold str_eq. rewrite (String.eqb_sym sb sa).
  destruct (String.eqb_spec sa sb) as [Heq|Hne]; [lia |].
  unfold str_gt, String.ltb. rewrite (String.compare_antisym sa sb).
  destruct (String.compare sb sa) eqn:Hcmp; simpl; try lia.
  apply String.compare_eq_iff in Hcmp. congruence.
Qed.

Lemma compareRows_initial_before (a b : Dashboard.Tender) :
  before (Dashboard.compareRows Dashboard.initialSort) a b ->
  String.le (published b) (published a).
Proof.
  unfold before, Dashboard.compareRows, published; simpl.
  set (sa := Dashboard.or_empty (Dashboard.published_at a)).
  set (sb := Dashboard.or_empty (Dashboard.published_at b)).
  destruct (str_eq sa sb) eqn:Heq.
  - intros _. apply str_eq_iff in Heq. rewrite Heq. reflexivity.
  - destruct (str_gt sa sb) eqn:Hgt; [intros _; now apply str_gt_le | lia].
Qed.

(** C3 (as amended): when the country option is a value other than "ALL",
    the fallback filter of the collector keeps, among the tenders the other
    conditions keep, exactly those whose country equals the value once its
    surrounding white space is trimmed, and the dashboard filter exactly
    those whose country equals the value up to letter case (a missing
    country counting as empty); with "ALL" the country condition removes
    no tender. *)
Theorem country_filter (c : string) :
  c <> "ALL" ->
  (forall (tenders : list Collector.Tender) p a q f t,
      In t (Collector.visibleTenders tenders (Collector.mkFilterState p c a q f)) <->
      In t (Collector.visibleTenders tenders (Collector.mkFilterState p "ALL" a q f))
      /\ trim (Collector.pays t) = c)
  /\ (forall (tenders : list Dashboard.Tender) p q qf qv ss t,
         In t (Dashboard.filteredTenders tenders (Dashboard.mkViewState c p q qf qv ss)) <->
         In t (Dashboard.filteredTenders tenders (Dashboard.mkViewState "ALL" p q qf qv ss))
         /\ toUpperCase (Dashboard.or_empty (Dashboard.country t)) = toUpperCase c)
  /\ (forall (tenders : list Collector.Tender) f,
         Collector.visibleTenders tenders
           (Collector.mkFilterState "ALL" "ALL" false "" f) = tenders)
  /\ (forall (tenders : list Dashboard.Tender) qf ss,
         Permutation tenders
           (Dashboard.filteredTenders tenders
              (Dashboard.mkViewState "ALL" "ALL" "" qf "" ss))).
Proof.
  intros Hc. split; [| split; [| split]].
  - intros tenders p a q f t.
    rewrite !visibleTenders_In, (keeps_country p c a q f t Hc). tauto.
  - intros tenders p q qf qv ss t.
    rewrite !filteredTenders_In, (keepsRow_country c p q qf qv ss t Hc). tauto.
  - intros tenders f. apply visibleTenders_neutral.
  - intros tenders qf ss. unfold Dashboard.filteredTenders.
    rewrite filterRows_neutral. apply sort_by_perm.
Qed.

(** C6: with the initial sort state (nobody chose a sort key) the listing
    of the dashboard is ordered by published date descending: in every
    adjacent pair the date of the earlier row is greater than or equal to the
    date of the later one (code-unit order, a missing date counting as the
    empty string); the listing holds the filtered rows, each once. *)
Theorem filteredTenders_default_order (tenders : list Dashboard.Tender)
    (c p q : string) (qf : Dashboard.QuickField) (qv : string) :
  let rows := Dashboard.filteredTenders tenders
                (Dashboard.mkViewState c p q qf qv Dashboard.initialSort) in
  adjacent_pairs (fun a b => String.le (published b) (published a)) rows
  /\ Permutation
       (Dashboard.filterRows tenders
          (Dashboard.mkViewState c p q qf qv Dashboard.initialSort)) rows
  /\ Dashboard.initialSort = Dashboard.mkSortState Dashboard.col_published_at Dashboard.desc.
Proof.
  intros rows. split; [| split; [apply sort_by_perm | reflexivity]].
  apply Sorted_adjacent.
  apply (Sorted_weaken (before (Dashboard.compareRows Dashboard.initialSort))).
  - apply compareRows_initial_before.
  - apply sort_by_sorted. apply compareRows_initial_total.
Qed.

End DashboardFacts.

Section DashboardExamples.
#[local] Existing Instance AsciiText.ascii_host.

Lemma country_filter_witness :
  "CA"%string <> "ALL"%string
  /\ (forall t,
         In t (Collector.visibleTenders
                 [sample_tender "Audit CRM" "Ville" " CA " false;
                  sample_tender "ERP" "City" "US" false]
                 (Collector.mkFilterState "ALL" "CA" false "" Collector.title)) <->
         In t (Collector.visibleTenders
                 [sample_tender "Audit CRM" "Ville" " CA " false;
                  sample_tender "ERP" "City" "US" false]
                 (Collector.mkFilterState "ALL" "ALL" false "" Collector.title))
         /\ trim (Collector.pays t) = "CA").
Proof.
  split; [discriminate |]. intros t.
  apply (country_filter "CA"); discriminate.
Defined.

(** C3, the claim as stated fails: under the option "CA" the collector
    keeps a tender whose country field is " CA ", which is not an exact
    match of the configured value. *)
Lemma country_filter_not_exact :
  "CA"%string <> "ALL"%string
  /\ In (sample_tender "Audit CRM" "Ville" " CA " false)
        (Collector.visibleTenders
           [sample_tender "Audit CRM" "Ville" " CA " false]
           (Collector.mkFilterState "ALL" "CA" false "" Collector.title))
  /\ Collector.pays (sample_tender "Audit CRM" "Ville" " CA " false) <> "CA".
Proof.
  split; [discriminate |]. split; [vm_compute; left; reflexivity | discriminate].
Qed.

End DashboardExamples.

(* ===================================================================== *)
(** * Column visibility                                                   *)
(* ===================================================================== *)

Section ColumnFacts.
Import Dashboard.

Lemma is_locked_spec (k : ColumnKey) :
  is_locked k = true <-> k = col_id \/ k = col_title.
Proof.
  destruct k; vm_compute; split; intros H;
    try discriminate; try (destruct H; discriminate); auto.
Qed.

Lemma toggleColumn_locked (k : ColumnKey) (s : gset ColumnKey) :
  is_locked k = true -> toggleColumn k s = s.
Proof. unfold toggleColumn. now intros ->. Qed.

Lemma toggleColumn_keeps (k : ColumnKey) (s : gset ColumnKey) :
  col_id ∈ s -> col_title ∈ s ->
  col_id ∈ toggleColumn k s /\ col_title ∈ toggleColumn k s.
Proof.
  intros Hid Htitle. unfold toggleColumn.
  destruct (is_locked k) eqn:Hk; [tauto |].
  assert (k <> col_id /\ k <> col_title) as [Hn1 Hn2].
  { split; intros ->; vm_compute in Hk; discriminate. }
  destruct (bool_decide (k ∈ s)); set_solver.
Qed.

Lemma toggles_keep (ks : list ColumnKey) (s : gset ColumnKey) :
  col_id ∈ s -> col_title ∈ s ->
  col_id ∈ toggles ks s /\ col_title ∈ toggles ks s.
Proof.
  revert s. induction ks as [|k ks IH]; intros s Hid Htitle; simpl.
  - tauto.
  - destruct (toggleColumn_keeps k s Hid Htitle) as [H1 H2].
    apply IH; assumption.
Qed.

(** C10: the columns [id] and [title] are visible in every state
    reachable from the initial one by calls of [toggleColumn]: the initial
    state holds both, they are the locked columns, and [toggleColumn] leaves
    the state unchanged on a locked column. *)
Theorem locked_columns_always_visible (ks : list ColumnKey) :
  col_id ∈ toggles ks initialColumns
  /\ col_title ∈ toggles ks initialColumns
  /\ col_id ∈ initialColumns
  /\ col_title ∈ initialColumns
  /\ is_locked col_id = true
  /\ is_locked col_title = true
  /\ (forall k s, is_locked k = true -> toggleColumn k s = s).
Proof.
  assert (Hid : col_id ∈ initialColumns) by (unfold initialColumns; set_solver).
  assert (Htitle : col_title ∈ initialColumns) by (unfold initialColumns; set_solver).
  destruct (toggles_keep ks initialColumns Hid Htitle) as [H1 H2].
  repeat split; try assumption; try reflexivity.
  apply toggleColumn_locked.
Qed.

Lemma locked_columns_always_visible_witness :
  is_locked col_id = true
  /\ toggleColumn col_id initialColumns = initialColumns
  /\ col_id ∈ toggles [col_id; col_title; col_score; col_portal] initialColumns.
Proof.
  split; [reflexivity |]. split.
  - apply (locked_columns_always_visible []). reflexivity.
  - apply (locked_columns_always_visible [col_id; col_title; col_score; col_portal]).
Defined.

End ColumnFacts.

(* ===================================================================== *)
(** * Listing and reports of the back end                                 *)
(* ===================================================================== *)

Section BackendFacts.
Import Backend.
Context {host : Host}.

Lemma sum_counts_perm (r r' : list (string * nat)) :
  Permutation r r' -> sum_counts r = sum_counts r'.
Proof.
  induction 1 as [| x l l' _ IH | x y l | l l' l'' _ IH1 _ IH2]; simpl;
    [reflexivity | now rewrite IH | lia | congruence].
Qed.

Lemma sum_counts_take (k : nat) (r : list (string * nat)) :
  (sum_counts (take k r) <= sum_counts r)%nat.
Proof.
  revert k. induction r as [|x r IH]; intros [|k]; simpl; try lia.
  specialize (IH k). lia.
Qed.

(** The number of labels of [L] equal to [k]: one when [L] has no
    duplicate and holds [k]. *)
Lemma sum_indicator (k : string) (L : list string) :
  NoDup L -> In k L ->
  sum_counts (List.map (fun l => (l, if String.eqb l k then 1%nat else 0%nat)) L) = 1%nat.
Proof.
  induction 1 as [|x L Hx Hnd IH]; intros Hin; simpl; [contradiction |].
  destruct (String.eqb_spec x k) as [->|Hne].
  - assert (Hzero : forall L', ~ In k L' ->
      sum_counts (List.map (fun l => (l, if String.eqb l k then 1%nat else 0%nat)) L') = 0%nat).
    { induction L' as [|y L' IH']; simpl; intros Hk; [reflexivity |].
      destruct (String.eqb_spec y k) as [->|_]; [exfalso; apply Hk; now left |].
      apply IH'. intros Hin'. apply Hk. now right. }
    rewrite Hzero; [reflexivity |].
    intros Hk. apply Hx. now apply list_elem_of_In.
  - destruct Hin as [Heq|Hin]; [congruence |]. now apply IH.
Qed.

(** In a dimension where a tender has one label, the counts of a
    duplicate-free list of labels that covers the tenders add up to the
    number of tenders. *)
Lemma sum_single_label (key : Tender -> string) (ts : list Tender) (L : list string) :
  NoDup L -> (forall t, In t ts -> In (key t) L) ->
  sum_counts
    (List.map (fun l => (l, length (List.filter (fun t => String.eqb l (key t) || false) ts))) L)
  = length ts.
Proof.
  intros Hnd. induction ts as [|t ts IH]; intros Hcov.
  - simpl. clear Hnd Hcov.
    induction L as [|l L IHL]; simpl; [reflexivity | exact IHL].
  - assert (Hsplit : forall L',
      sum_counts
        (List.map (fun l => (l, length (List.filter (fun t0 => String.eqb l (key t0) || false) (t :: ts)))) L')
      = (sum_counts (List.map (fun l => (l, if String.eqb l (key t) then 1%nat else 0%nat)) L')
         + sum_counts
             (List.map (fun l => (l, length (List.filter (fun t0 => String.eqb l (key t0) || false) ts))) L'))%nat).
    { induction L' as [|l L' IH']; simpl; [reflexivity |].
      simpl in IH'. rewrite IH'. rewrite orb_false_r.
      destruct (String.eqb l (key t)); simpl; lia. }
    rewrite Hsplit, IH by (intros t' Ht'; apply Hcov; now right).
    rewrite sum_indicator; [reflexivity | exact Hnd | apply Hcov; now left].
Qed.

Lemma distinct_labels_NoDup (d : Dimension) (ts : list Tender) :
  NoDup (distinct_labels d ts).
Proof. apply NoDup_remove_dups. Qed.

Lemma distinct_labels_In (d : Dimension) (ts : list Tender) (l : string) :
  In l (distinct_labels d ts) <-> exists t, In t ts /\ In l (bucket_labels d t).
Proof.
  unfold distinct_labels.
  rewrite <- list_elem_of_In, elem_of_remove_dups, list_elem_of_In, in_flat_map.
  reflexivity.
Qed.

Lemma sum_buckets_single (d : Dimension) (key : Tender -> string) (ts : list Tender) :
  (forall t, bucket_labels d t = [key t]) ->
  sum_counts (buckets d ts) = length ts.
Proof.
  intros Hkey. unfold buckets.
  rewrite <- (sum_counts_perm _ _ (sort_by_perm bucket_cmp _)).
  rewrite <- (sum_single_label key ts (distinct_labels d ts)).
  - f_equal. apply map_ext. intros l. unfold bucket_count. do 2 f_equal.
    apply filter_ext_eq. intros t. unfold has_label. now rewrite Hkey.
  - apply distinct_labels_NoDup.
  - intros t Ht. apply distinct_labels_In. exists t. split; [exact Ht |].
    rewrite Hkey. now left.
Qed.

(** C1: for every filter configuration over one committed collection,
    the listing and the reports work on the same filtered collection: the
    unlimited listing is a rearrangement of it, [total_tenders] of the
    category and portal reports is the length of the unlimited listing
    whatever [top_n], and the bucket counts of the untruncated category and
    portal reports add up to [total_tenders]. *)
Theorem filter_consistency (now : Z) (F : Filter) (top_n : option nat)
    (store : list Tender) :
  Permutation (filtered now F store) (listTenders now F None store)
  /\ total_tenders (statsByCategory now F top_n store)
     = length (listTenders now F None store)
  /\ total_tenders (statsByPortal now F top_n store)
     = length (listTenders now F None store)
  /\ sum_counts (rows (statsByCategory now F None store))
     = total_tenders (statsByCategory now F None store)
  /\ sum_counts (rows (statsByPortal now F None store))
     = total_tenders (statsByPortal now F None store).
Proof.
  unfold statsByCategory, statsByPortal, stats, listTenders; simpl.
  rewrite sort_by_length.
  repeat split.
  - apply sort_by_perm.
  - apply (sum_buckets_single by_category category). reflexivity.
  - apply (sum_buckets_single by_portal portal). reflexivity.
Qed.

(** A truncated report can only lose counts. *)
Lemma truncated_counts_le (d : Dimension) (now : Z) (F : Filter) (n : nat)
    (store : list Tender) :
  (sum_counts (rows (stats d now F (Some n) store))
   <= sum_counts (rows (stats d now F None store)))%nat.
Proof. unfold stats; simpl. apply sum_counts_take. Qed.

End BackendFacts.

Section KeywordReportFacts.
Import Backend.
Context {host : Host}.

Lemma bucket_cmp_total (x y : string * nat) :
  0 < bucket_cmp x y -> bucket_cmp y x <= 0.
Proof.
  unfold bucket_cmp.
  destruct (Nat.ltb_spec x.2 y.2) as [Hlt|Hge].
  - intros _. destruct (Nat.ltb_spec y.2 x.2); [lia |].
    destruct (Nat.ltb_spec x.2 y.2); lia.
  - destruct (Nat.ltb_spec y.2 x.2) as [Hlt'|Hge']; [lia |].
    rewrite (String.eqb_sym y.1 x.1).
    destruct (String.eqb_spec x.1 y.1) as [Heq|Hne]; [lia |].
    unfold String.ltb. rewrite (String.compare_antisym y.1 x.1).
    destruct (String.compare x.1 y.1) eqn:Hcmp; simpl; try lia.
    apply String.compare_eq_iff in Hcmp. congruence.
Qed.

Lemma bucket_cmp_before (x y : string * nat) :
  before bucket_cmp x y -> bucket_le x y.
Proof.
  unfold before, bucket_cmp, bucket_le.
  destruct (Nat.ltb_spec x.2 y.2) as [Hlt|Hge]; [lia |].
  destruct (Nat.ltb_spec y.2 x.2) as [Hlt'|Hge']; [intros _; now left |].
  intros H. right. split; [lia |].
  destruct (String.eqb_spec x.1 y.1) as [->|Hne]; [reflexivity |].
  unfold String.le, String.leb. unfold String.ltb in H.
  destruct (String.compare x.1 y.1); simpl; try exact I. lia.
Qed.

Lemma buckets_sorted (d : Dimension) (ts : list Tender) :
  adjacent_pairs bucket_le (buckets d ts).
Proof.
  apply Sorted_adjacent.
  apply (Sorted_weaken (before bucket_cmp)); [apply bucket_cmp_before |].
  apply sort_by_sorted, bucket_cmp_total.
Qed.

Lemma adjacent_pairs_truncate {A : Type} (R : A -> A -> Prop) (n : option nat)
    (l : list A) :
  adjacent_pairs R l -> adjacent_pairs R (truncate n l).
Proof.
  destruct n as [k|]; simpl; [| tauto].
  intros H i a b Ha Hb.
  apply lookup_take_Some in Ha as [Ha _]. apply lookup_take_Some in Hb as [Hb _].
  exact (H i a b Ha Hb).
Qed.

Lemma buckets_counts (d : Dimension) (ts : list Tender) (b : string * nat) :
  In b (buckets d ts) ->
  b.2 = bucket_count d ts b.1 /\ exists t, In t ts /\ In b.1 (bucket_labels d t).
Proof.
  unfold buckets. rewrite sort_by_In, in_map_iff.
  intros [l [<- Hl]]. simpl. split; [reflexivity |].
  now apply distinct_labels_In.
Qed.

Lemma truncate_In {A : Type} (n : option nat) (l : list A) (x : A) :
  In x (truncate n l) -> In x l.
Proof.
  destruct n as [k|]; simpl; [| tauto].
  rewrite <- !list_elem_of_In. apply subseteq_take.
Qed.

Lemma bucket_count_pos (d : Dimension) (ts : list Tender) (l : string) :
  (0 < bucket_count d ts l)%nat -> In l (distinct_labels d ts).
Proof.
  unfold bucket_count. intros Hpos. apply distinct_labels_In.
  destruct (List.filter (has_label d l) ts) as [|t r] eqn:Hf; [simpl in Hpos; lia |].
  assert (Hin : In t (List.filter (has_label d l) ts)) by (rewrite Hf; now left).
  apply filter_In in Hin as [Hin Hlab]. exists t. split; [exact Hin |].
  unfold has_label in Hlab. apply existsb_exists in Hlab as [k [Hk Heq]].
  apply String.eqb_eq in Heq. now subst.
Qed.

Lemma two_labels (a b : string) (L : list string) :
  a <> b -> NoDup L -> In a L -> In b L ->
  (forall k, In k L -> k = a \/ k = b) ->
  L = [a; b] \/ L = [b; a].
Proof.
  intros Hab Hnd Ha Hb Hall.
  destruct L as [|x [|y [|z L]]].
  - contradiction.
  - simpl in Ha, Hb. destruct Ha as [<-|[]], Hb as [<-|[]]. congruence.
  - apply NoDup_cons in Hnd as [Hxy _].
    assert (x <> y) by (intros ->; apply Hxy; now left).
    simpl in Ha, Hb.
    destruct Ha as [<-|[<-|[]]], Hb as [<-|[<-|[]]]; try congruence; auto.
  - exfalso.
    apply NoDup_cons in Hnd as [Hx Hnd]. apply NoDup_cons in Hnd as [Hy Hnd].
    apply NoDup_cons in Hnd as [Hz _].
    assert (x <> y) by (intros ->; apply Hx; now left).
    assert (x <> z) by (intros ->; apply Hx; right; now left).
    assert (y <> z) by (intros ->; apply Hy; now left).
    destruct (Hall x) as [?|?]; [now left | |];
      destruct (Hall y) as [?|?]; try (right; now left);
      destruct (Hall z) as [?|?]; try (right; right; now left); congruence.
Qed.

Lemma only_labels_check (ts : list Tender) (a b : string) :
  forallb (fun t => forallb (fun k => String.eqb k a || String.eqb k b) (matched_keywords t)) ts
  = true ->
  forall t k, In t ts -> In k (matched_keywords t) -> k = a \/ k = b.
Proof.
  intros H t k Ht Hk. rewrite forallb_forall in H. specialize (H t Ht).
  rewrite forallb_forall in H. specialize (H k Hk).
  apply orb_true_iff in H as [H|H]; apply String.eqb_eq in H; auto.
Qed.

(** C8 (spec-modelled): the keyword report lists its (label, count)
    rows by count descending, ties by label ascending, cut to [top_n]; each
    count is the number of filtered tenders that match the label;
    [total_tenders] is the size of the filtered set, not the sum of the
    counts; and when "odoo" matches 12 filtered tenders, "servicenow" 8 and
    no other keyword occurs, [top_n = 1] returns exactly [("odoo", 12)]. *)
Theorem statsByKeyword_ranking (now : Z) (F : Filter) (top_n : option nat)
    (store : list Tender) :
  adjacent_pairs bucket_le (rows (statsByKeyword now F top_n store))
  /\ rows (statsByKeyword now F top_n store)
     = truncate top_n (rows (statsByKeyword now F None store))
  /\ (forall n, top_n = Some n ->
        (length (rows (statsByKeyword now F top_n store)) <= n)%nat)
  /\ (forall b, In b (rows (statsByKeyword now F top_n store)) ->
        b.2 = bucket_count by_keyword (filtered now F store) b.1)
  /\ total_tenders (statsByKeyword now F top_n store) = length (filtered now F store)
  /\ (bucket_count by_keyword (filtered now F store) "odoo" = 12%nat ->
      bucket_count by_keyword (filtered now F store) "servicenow" = 8%nat ->
      (forall t k, In t (filtered now F store) -> In k (matched_keywords t) ->
                   k = "odoo" \/ k = "servicenow") ->
      rows (statsByKeyword now F (Some 1%nat) store) = [("odoo", 12%nat)]).
Proof.
  unfold statsByKeyword, stats; simpl.
  set (ts := filtered now F store).
  split; [apply adjacent_pairs_truncate, buckets_sorted |].
  split; [reflexivity |].
  split; [intros n ->; simpl; rewrite length_take; lia |].
  split; [intros b Hb; apply truncate_In in Hb; now apply buckets_counts |].
  split; [reflexivity |].
  intros Hodoo Hsn Honly.
  assert (HL : distinct_labels by_keyword ts = ["odoo"; "servicenow"]
               \/ distinct_labels by_keyword ts = ["servicenow"; "odoo"]).
  { apply two_labels.
    - discriminate.
    - apply distinct_labels_NoDup.
    - apply bucket_count_pos. rewrite Hodoo. lia.
    - apply bucket_count_pos. rewrite Hsn. lia.
    - intros k [t [Ht Hk]]%distinct_labels_In. exact (Honly t k Ht Hk). }
  unfold buckets. destruct HL as [-> | ->]; simpl; rewrite Hodoo, Hsn; reflexivity.
Qed.

End KeywordReportFacts.

Section KeywordReportExamples.
Import Backend.
#[local] Existing Instance AsciiText.ascii_host.

Lemma statsByKeyword_ranking_witness :
  bucket_count by_keyword (filtered 0 no_filter scenario_store) "odoo" = 12%nat
  /\ bucket_count by_keyword (filtered 0 no_filter scenario_store) "servicenow" = 8%nat
  /\ rows (statsByKeyword 0 no_filter (Some 1%nat) scenario_store) = [("odoo", 12%nat)]
  /\ total_tenders (statsByKeyword 0 no_filter (Some 1%nat) scenario_store) = 17%nat.
Proof.
  split; [reflexivity |]. split; [reflexivity |]. split; [| reflexivity].
  apply (statsByKeyword_ranking 0 no_filter (Some 1%nat) scenario_store).
  - reflexivity.
  - reflexivity.
  - apply only_labels_check. reflexivity.
Defined.

End KeywordReportExamples.

(* ===================================================================== *)
(** * Further facts on the two front ends                                 *)
(* ===================================================================== *)

Section CollatedOrder.
Variable localeCompare : string -> string -> Z.
Hypothesis localeCompare_antisym :
  forall s t, 0 < localeCompare s t -> localeCompare t s <= 0.

(** [fetchTenders] of the collector stores the tenders by publication date
    descending in the collation order of the host. *)
Lemma sortByPublication_sorted (normalized : list Collector.Tender) :
  adjacent_pairs
    (fun a b => localeCompare (Collector.date_publication b)
                              (Collector.date_publication a) <= 0)
    (Collector.sortByPublication localeCompare normalized)
  /\ Permutation normalized (Collector.sortByPublication localeCompare normalized).
Proof.
  split; [| apply sort_by_perm].
  apply Sorted_adjacent. unfold Collector.sortByPublication.
  eapply Sorted_weaken; [| apply sort_by_sorted].
  - intros a b H. unfold before in H. now rewrite !or_empty_id in H.
  - intros a b. apply localeCompare_antisym.
Qed.

End CollatedOrder.

Section FrontEndFacts.
Context {host : Host}.

(** A [null] item is the one input on which [normalizeTender] raises. *)
Lemma normalize_null_throws :
  Collector.normalizeTender Collector.ItemNull = Throw TypeError.
Proof. reflexivity. Qed.

Lemma normalize_empty_record :
  Collector.normalizeTender (Collector.ItemRecord ∅)
  = Ok (Collector.mkTender JUndefined (JStr "") (JStr "") (JStr "") (JStr "")
          (JStr "") (JStr "") (JStr "") (JStr "") false).
Proof. reflexivity. Qed.

(** The dashboard sends the same filter to [/tenders] and to the two
    report end points. *)
Lemma dashboard_same_filter (countryFilter portalFilter query : string) :
  List.filter is_filter_key (Dashboard.tendersParams countryFilter portalFilter query)
  = List.filter is_filter_key (Dashboard.reportParams countryFilter portalFilter query).
Proof.
  unfold Dashboard.tendersParams, Dashboard.reportParams, Dashboard.filterParams.
  destruct (negb (String.eqb countryFilter "") && negb (str_eq countryFilter "ALL"));
    destruct (negb (String.eqb portalFilter "") && negb (str_eq portalFilter "ALL"));
    destruct (negb (String.eqb (trim query) "")); reflexivity.
Qed.

End FrontEndFacts.

Section FrontEndExamples.
#[local] Existing Instance AsciiText.ascii_host.

(** The dashboard has no search field: a query term found only in the
    source of a tender keeps the tender. *)
Lemma dashboard_query_reads_source :
  Dashboard.filterRows
    [Dashboard.mkTender one "SEAO" "Portail QC" None None (Some "Ville") "Audit"
       "" None None None None None None]
    (Dashboard.mkViewState "ALL" "ALL" "seao" Dashboard.qf_title ""
       Dashboard.initialSort)
  = [Dashboard.mkTender one "SEAO" "Portail QC" None None (Some "Ville") "Audit"
       "" None None None None None None].
Proof. reflexivity. Qed.

End FrontEndExamples.

(* ===================================================================== *)
(** * Columns and sort state of the dashboard, continued                  *)
(* ===================================================================== *)

Section ColumnToggleFacts.
Import Dashboard DashboardUi.

(** Toggling a column twice gives back the set of visible columns. *)
Theorem toggleColumn_involutive (k : ColumnKey) (s : gset ColumnKey) :
  toggleColumn k (toggleColumn k s) = s.
Proof.
  unfold toggleColumn. destruct (is_locked k) eqn:Hk; [reflexivity |].
  destruct (bool_decide (k ∈ s)) eqn:Hin.
  - apply bool_decide_eq_true in Hin.
    rewrite bool_decide_eq_false_2 by set_solver.
    apply set_eq. intros x. destruct (decide (x = k)); set_solver.
  - apply bool_decide_eq_false in Hin.
    rewrite bool_decide_eq_true_2 by set_solver.
    set_solver.
Qed.

(** On a column that is not locked, [toggleColumn] flips the visibility of
    that column and of no other. *)
Theorem toggleColumn_flips_one (k : ColumnKey) (s : gset ColumnKey) :
  is_locked k = false ->
  (k ∈ toggleColumn k s <-> k ∉ s)
  /\ (forall j, j <> k -> (j ∈ toggleColumn k s <-> j ∈ s)).
Proof.
  intros Hk. unfold toggleColumn. rewrite Hk.
  destruct (bool_decide (k ∈ s)) eqn:Hin.
  - apply bool_decide_eq_true in Hin. split; [set_solver | intros j Hj; set_solver].
  - apply bool_decide_eq_false in Hin. split; [set_solver | intros j Hj; set_solver].
Qed.

Lemma toggleColumn_flips_one_witness :
  is_locked col_score = false
  /\ (col_score ∈ toggleColumn col_score initialColumns <-> col_score ∉ initialColumns).
Proof.
  split; [reflexivity |].
  apply (toggleColumn_flips_one col_score initialColumns). reflexivity.
Defined.

(** A click on a header makes that column the sort key; a click on a column
    that was not the key sorts ascending; further clicks on the same column
    alternate between descending and ascending. *)
Theorem handleSort_cycle (k : ColumnKey) (s : SortState) :
  key (handleSort k s) = k
  /\ (key s <> k -> direction (handleSort k s) = asc)
  /\ direction (handleSort k (handleSort k s)) <> direction (handleSort k s)
  /\ handleSort k (handleSort k (handleSort k s)) = handleSort k s.
Proof.
  destruct s as [k0 d].
  split; [unfold handleSort; simpl; now destruct (bool_decide (k0 = k)) |].
  split.
  - intros Hne. unfold handleSort. simpl in *.
    now rewrite bool_decide_eq_false_2.
  - destruct k, k0, d; vm_compute; split; congruence.
Qed.

Lemma filter_sublist {A : Type} (f : A -> bool) (l : list A) :
  sublist (List.filter f l) l.
Proof.
  induction l as [|x l IH]; simpl; [constructor |].
  destruct (f x); [apply sublist_skip | apply sublist_cons]; exact IH.
Qed.

(** Whatever columns were toggled, the header row starts with the [id]
    column followed by the [title] column, and shows the visible columns in
    the order of [ALL_COLUMNS]. *)
Theorem header_starts_with_id_title (ks : list ColumnKey) :
  exists rest,
    headerColumns (toggles ks initialColumns)
    = mkColumn col_id "ID" (Some align_left) (Some true)
      :: mkColumn col_title "Titre" (Some align_left) (Some true) :: rest
    /\ sublist (headerColumns (toggles ks initialColumns)) ALL_COLUMNS.
Proof.
  assert (Hid : col_id ∈ initialColumns) by (unfold initialColumns; set_solver).
  assert (Htitle : col_title ∈ initialColumns) by (unfold initialColumns; set_solver).
  destruct (toggles_keep ks initialColumns Hid Htitle) as [H1 H2].
  eexists. split; [| apply filter_sublist].
  unfold headerColumns, ALL_COLUMNS, isColumnVisible.
  cbn [List.filter col_key].
  rewrite !bool_decide_eq_true_2 by assumption.
  reflexivity.
Qed.

End ColumnToggleFacts.

(* ===================================================================== *)
(** * Sorting the dashboard by any column                                 *)
(* ===================================================================== *)

Section DashboardSortFacts.
Import Dashboard DashboardUi.
Context {host : Host}.


Lemma compareRows_number (k : ColumnKey) (d : Direction) (a b : Tender) :
  is_numeric k = true ->
  compareRows (mkSortState k d) a b =
  (if num_eq (sort_number k a) (sort_number k b) then 0
   else if num_gt (sort_number k a) (sort_number k b)
        then match d with asc => 1 | desc => -1 end
        else - match d with asc => 1 | desc => -1 end).
Proof. destruct k; simpl; intros H; try discriminate; reflexivity. Qed.





Lemma SFcompare_antisym (x y : number) :
  SFcompare y x = option_map CompOpp (SFcompare x y).
Proof.
  destruct x as [sx|sx| |sx mx ex], y as [sy|sy| |sy my ey]; simpl;
    try reflexivity;
    try (destruct sx; reflexivity); try (destruct sy; reflexivity);
    try (destruct sx, sy; reflexivity).
  destruct sx, sy; simpl; try reflexivity;
    rewrite (Z.compare_antisym ex ey); destruct (ex ?= ey)%Z; simpl;
      try reflexivity;
      rewrite (Pos.compare_cont_antisym mx my Eq); reflexivity.
Qed.

Lemma num_gt_asym (x y : number) : num_gt x y = true -> num_gt y x = false.
Proof.
  unfold num_gt, SFltb. rewrite (SFcompare_antisym y x).
  destruct (SFcompare y x) as [[]|]; simpl; congruence.
Qed.

Lemma num_eq_not_gt (x y : number) : num_eq x y = true -> num_gt x y = false.
Proof.
  unfold num_eq, num_gt, SFeqb, SFltb. rewrite (SFcompare_antisym x y).
  destruct (SFcompare x y) as [[]|]; simpl; congruence.
Qed.

Lemma num_eq_sym (x y : number) : num_eq x y = num_eq y x.
Proof.
  unfold num_eq, SFeqb. rewrite (SFcompare_antisym y x).
  destruct (SFcompare y x) as [[]|]; reflexivity.
Qed.

(** Sorting the dashboard ascending on a numeric column ([id], [budget],
    [score]): no row is followed by one with a strictly smaller number, a
    missing number counting as minus infinity. *)
Theorem filteredTenders_numeric_ascending (tenders : list Tender)
    (c p q : string) (qf : QuickField) (qv : string) (k : ColumnKey) :
  is_numeric k = true ->
  adjacent_pairs
    (fun a b => num_gt (sort_number k a) (sort_number k b) = false)
    (filteredTenders tenders (mkViewState c p q qf qv (mkSortState k asc))).
Proof.
  intros Hk. apply Sorted_adjacent. unfold filteredTenders; simpl.
  apply (Sorted_weaken (before (compareRows (mkSortState k asc)))).
  - intros a b. unfold before. rewrite compareRows_number by exact Hk.
    destruct (num_eq (sort_number k a) (sort_number k b)) eqn:Heq.
    + intros _. now apply num_eq_not_gt.
    + destruct (num_gt (sort_number k a) (sort_number k b)); [lia | reflexivity].
  - apply sort_by_sorted. intros a b. rewrite !compareRows_number by exact Hk.
    rewrite (num_eq_sym (sort_number k b)).
    destruct (num_eq (sort_number k a) (sort_number k b)); [lia |].
    destruct (num_gt (sort_number k a) (sort_number k b)) eqn:Hgt; [| lia].
    rewrite (num_gt_asym _ _ Hgt). lia.
Qed.

End DashboardSortFacts.

Section DashboardSortWitnesses.
Import Dashboard DashboardUi Samples.
#[local] Existing Instance AsciiText.ascii_host.


Lemma filteredTenders_numeric_ascending_witness :
  is_numeric col_score = true
  /\ adjacent_pairs
       (fun a b => num_gt (sort_number col_score a) (sort_number col_score b) = false)
       (filteredTenders sample_rows
          (mkViewState "ALL" "ALL" "" qf_title "" (mkSortState col_score asc)))
  /\ List.map title
       (filteredTenders sample_rows
          (mkViewState "ALL" "ALL" "" qf_title "" (mkSortState col_score asc)))
     = ["crm"; "Audit"; "Odoo"].
Proof.
  split; [reflexivity |]. split; [| reflexivity].
  apply (filteredTenders_numeric_ascending sample_rows "ALL" "ALL" "" qf_title ""
           col_score).
  reflexivity.
Defined.

End DashboardSortWitnesses.

(* ===================================================================== *)
(** * The query box and the summary of the dashboard                      *)
(* ===================================================================== *)

Section DashboardQueryFacts.
Import Dashboard DashboardUi Samples.
Context {host : Host}.




Lemma remove_dups_length {A : Type} `{EqDecision A} (l : list A) :
  (length (remove_dups l) <= length l)%nat.
Proof.
  induction l as [|x l IH]; simpl; [lia |].
  destruct (decide_rel elem_of x l); simpl; lia.
Qed.

Lemma remove_dups_nil {A : Type} `{EqDecision A} (l : list A) :
  remove_dups l = [] -> l = [].
Proof.
  intros H. destruct l as [|x l]; [reflexivity |].
  assert (Hx : x ∈ remove_dups (x :: l)) by (apply elem_of_remove_dups; left).
  rewrite H in Hx. inversion Hx.
Qed.

(** The summary line: the number of distinct portals never exceeds the
    number of rows and is zero only when there is no row; the average score
    is absent exactly when no row has a score. *)
Theorem summary_counts (rows : list Tender) :
  total (summary rows) = length rows
  /\ (portals (summary rows) <= total (summary rows))%nat
  /\ (portals (summary rows) = 0%nat <-> rows = [])
  /\ (avgScore (summary rows) = None <-> Forall (fun t => score t = None) rows).
Proof.
  unfold summary; simpl. split; [reflexivity |]. split; [| split].
  - etransitivity; [apply remove_dups_length |]. now rewrite length_map.
  - split.
    + intros H. apply length_zero_iff_nil, remove_dups_nil in H.
      now apply map_eq_nil in H.
    + intros ->. reflexivity.
  - induction rows as [|t rows IH]; simpl.
    + split; [constructor | reflexivity].
    + destruct (score t) eqn:Hs; simpl.
      * split; [discriminate | intros H; inversion H; congruence].
      * rewrite IH. split; [intros H; now constructor | intros H; now inversion H].
Qed.

End DashboardQueryFacts.

(* ===================================================================== *)
(** * Option lists, selection and search box of the collector             *)
(* ===================================================================== *)

Section CollectorUiFacts.
Import Collector CollectorUi Samples.
Context {host : Host}.

Lemma set_add_spec (p : string) (acc : list string) :
  (NoDup acc -> NoDup (set_add p acc))
  /\ (forall x, x ∈ set_add p acc <-> x ∈ acc \/ x = p).
Proof.
  unfold set_add. destruct (bool_decide (p ∈ acc)) eqn:Hin.
  - apply bool_decide_eq_true in Hin. split; [tauto |].
    intros x. split; [tauto | intros [H| ->]; assumption].
  - apply bool_decide_eq_false in Hin. split.
    + intros Hnd. apply NoDup_app. repeat split; [exact Hnd | | apply NoDup_singleton].
      intros x Hx [->| []%not_elem_of_nil]%elem_of_cons. contradiction.
    + intros x. rewrite elem_of_app, list_elem_of_singleton. tauto.
Qed.

Lemma collect_acc (field : Tender -> string) (tenders : list Tender)
    (acc : list string) :
  let step := fun set t =>
      let p := trim (or_empty (field t)) in
      if negb (String.eqb p "") then set_add p set else set in
  (NoDup acc -> NoDup (foldl step acc tenders))
  /\ (forall x, x ∈ foldl step acc tenders <->
        x ∈ acc \/ (x <> EmptyString /\ exists t, In t tenders /\ trim (field t) = x)).
Proof.
  intros step. revert acc. induction tenders as [|t tenders IH]; intros acc.
  - simpl. split; [tauto |]. intros x. split; [tauto |].
    intros [H | [_ [t [[] _]]]]. exact H.
  - cbn [foldl]. destruct (IH (step acc t)) as [IHnd IHin]. split.
    + intros Hnd. apply IHnd. unfold step.
      destruct (negb _); [now apply set_add_spec | exact Hnd].
    + intros x. rewrite IHin. unfold step at 1. rewrite or_empty_id.
      destruct (String.eqb_spec (trim (field t)) "") as [He|Hne]; cbn [negb].
      * split.
        -- intros [H | [Hx [t' [Ht' Heq]]]]; [now left |].
           right. split; [exact Hx |]. exists t'. split; [now right | exact Heq].
        -- intros [H | [Hx [t' [[<-|Ht'] Heq]]]]; [now left | congruence |].
           right. split; [exact Hx |]. exists t'. split; assumption.
      * rewrite (proj2 (set_add_spec _ acc)). split.
        -- intros [[H | ->] | [Hx [t' [Ht' Heq]]]]; [now left | |].
           ++ right. split; [exact Hne |]. exists t. split; [now left | reflexivity].
           ++ right. split; [exact Hx |]. exists t'. split; [now right | exact Heq].
        -- intros [H | [Hx [t' [[<-|Ht'] Heq]]]]; [left; now left | left; now right |].
           right. split; [exact Hx |]. exists t'. split; assumption.
Qed.

Lemma collect_spec (field : Tender -> string) (tenders : list Tender) :
  NoDup (collect field tenders)
  /\ (forall x, In x (collect field tenders) <->
        x <> EmptyString /\ exists t, In t tenders /\ trim (field t) = x).
Proof.
  destruct (collect_acc field tenders []) as [Hnd Hin]. split.
  - apply Hnd. constructor.
  - intros x. rewrite <- list_elem_of_In. unfold collect. rewrite Hin.
    split; [intros [[]%not_elem_of_nil | H]; exact H | now right].
Qed.

Lemma sorted_options (localeCompare : string -> string -> Z) (l : list string) :
  NoDup l -> NoDup (sort_by localeCompare l).
Proof. intros H. now rewrite <- (sort_by_perm localeCompare l). Qed.

(** The country and portal option lists start with "ALL"; after it come,
    each once, exactly the non-empty trimmed countries (portals) of the loaded
    tenders. *)
Theorem options_from_data (localeCompare : string -> string -> Z)
    (tenders : list Tender) :
  (exists rest,
      countryOptions localeCompare tenders = "ALL" :: rest
      /\ NoDup rest
      /\ forall x, In x rest <->
           x <> EmptyString /\ exists t, In t tenders /\ trim (pays t) = x)
  /\ (exists rest,
         portalOptions localeCompare tenders = "ALL" :: rest
         /\ NoDup rest
         /\ forall x, In x rest <->
              x <> EmptyString /\ exists t, In t tenders /\ trim (portail t) = x).
Proof.
  split; eexists; (split; [reflexivity |]).
  - destruct (collect_spec pays tenders) as [Hnd Hin].
    split; [now apply sorted_options |].
    intros x. now rewrite sort_by_In.
  - destruct (collect_spec portail tenders) as [Hnd Hin].
    split; [now apply sorted_options |].
    intros x. now rewrite sort_by_In.
Qed.

(** An option offered by the country or the portal list never empties the
    table: chosen alone, it keeps at least one of the loaded tenders. *)
Theorem options_never_mismatch (localeCompare : string -> string -> Z)
    (tenders : list Tender) (o : string) (f : SearchField) :
  tenders <> [] ->
  (In o (countryOptions localeCompare tenders) ->
   visibleTenders tenders (mkFilterState "ALL" o false "" f) <> [])
  /\ (In o (portalOptions localeCompare tenders) ->
      visibleTenders tenders (mkFilterState o "ALL" false "" f) <> []).
Proof.
  intros Hne.
  assert (Hall : visibleTenders tenders (mkFilterState "ALL" "ALL" false "" f) <> [])
    by (rewrite visibleTenders_neutral; exact Hne).
  split; intros [<- | Ho]; try exact Hall.
  - apply sort_by_In, collect_spec in Ho as [_ [t [Ht Heq]]].
    intros Hnil.
    assert (Hin : In t (visibleTenders tenders (mkFilterState "ALL" o false "" f))).
    { apply visibleTenders_In. split; [exact Ht |].
      unfold keeps; simpl. rewrite lower_trim_nil, or_empty_id, Heq.
      unfold str_eq. rewrite String.eqb_refl, orb_true_r. reflexivity. }
    rewrite Hnil in Hin. contradiction.
  - apply sort_by_In, collect_spec in Ho as [_ [t [Ht Heq]]].
    intros Hnil.
    assert (Hin : In t (visibleTenders tenders (mkFilterState o "ALL" false "" f))).
    { apply visibleTenders_In. split; [exact Ht |].
      unfold keeps; simpl. rewrite lower_trim_nil, or_empty_id, Heq.
      unfold str_eq. rewrite String.eqb_refl, orb_true_r. reflexivity. }
    rewrite Hnil in Hin. contradiction.
Qed.

Lemma find_some_in {A : Type} (f : A -> bool) (l : list A) (x : A) :
  List.find f l = Some x -> In x l /\ f x = true.
Proof. apply find_some. Qed.

(** The detail panel: the selected tender is one of the loaded tenders and
    carries the selected id; it is the visible one when a visible tender has
    that id; nothing is selected exactly when no id is selected or no loaded
    tender has it, so a selection survives a filter that hides it. *)
Theorem selectedTender_spec (sel : option number) (tenders : list Tender)
    (st : FilterState) :
  (forall t, selectedTender sel (visibleTenders tenders st) tenders = Some t ->
     In t tenders /\ exists i, sel = Some i /\ num_eq (id t) i = true)
  /\ (selectedTender sel (visibleTenders tenders st) tenders = None <->
      sel = None \/ exists i, sel = Some i
                     /\ forall t, In t tenders -> num_eq (id t) i = false)
  /\ (forall i t, sel = Some i -> In t (visibleTenders tenders st) ->
        num_eq (id t) i = true ->
        exists t', selectedTender sel (visibleTenders tenders st) tenders = Some t'
                   /\ In t' (visibleTenders tenders st)).
Proof.
  unfold selectedTender. destruct sel as [i|].
  2:{ split; [discriminate |]. split; [split; auto |]. discriminate. }
  destruct (List.find (fun t => num_eq (id t) i) (visibleTenders tenders st))
    as [v|] eqn:Hv.
  - apply find_some in Hv as [Hvin Hvid].
    split; [| split].
    + intros t [= <-]. split; [now apply visibleTenders_In in Hvin | eauto].
    + split; [discriminate |].
      intros [[=] | [j [[= <-] Hall]]].
      apply visibleTenders_In in Hvin as [Hvin _].
      rewrite (Hall v Hvin) in Hvid. discriminate.
    + intros j t [= <-] _ _. eauto.
  - split; [| split].
    + intros t Ht. apply find_some in Ht as [Htin Htid]. eauto.
    + split.
      * intros Hnone. right. exists i. split; [reflexivity |].
        intros t Ht. exact (find_none _ _ Hnone t Ht).
      * intros [[=] | [j [[= <-] Hall]]].
        destruct (List.find (fun t => num_eq (id t) i) tenders) as [t|] eqn:Hf;
          [| reflexivity].
        apply find_some in Hf as [Htin Htid]. rewrite (Hall t Htin) in Htid.
        discriminate.
    + intros j t [= <-] Ht Hid.
      pose proof (find_none _ _ Hv t Ht) as Hc. simpl in Hc. congruence.
Qed.

End CollectorUiFacts.

Section CollectorUiExamples.
Import Collector CollectorUi Samples.
#[local] Existing Instance AsciiText.ascii_host.

Lemma options_never_mismatch_witness :
  sample_items <> []
  /\ In "CA" (countryOptions code_unit_compare sample_items)
  /\ visibleTenders sample_items (mkFilterState "ALL" "CA" false "" title) <> []
  /\ countryOptions code_unit_compare sample_items = ["ALL"; "CA"; "FR"]
  /\ portalOptions code_unit_compare sample_items = ["ALL"; "SEAO"].
Proof.
  split; [discriminate |].
  split; [vm_compute; tauto |].
  split; [| split; reflexivity].
  apply (options_never_mismatch code_unit_compare sample_items "CA" title).
  - discriminate.
  - vm_compute; tauto.
Defined.

End CollectorUiExamples.

Section SearchBoxFacts.
Import Collector CollectorUi Samples.
Context {host : Host}.

Lemma searchRun_snoc (evs : list SearchEvent) (ev : SearchEvent) :
  searchRun (evs ++ [ev]) = searchStep (searchRun evs) ev.
Proof. unfold searchRun. now rewrite foldl_app. Qed.

(** Whatever is typed, applied or reset in the search box, the query in
    effect carries no surrounding white space: trimming it again changes
    nothing.  Typing alone never changes the query in effect; applying sets
    it to the trimmed text; a reset empties the text and the query. *)
Theorem effective_query_trimmed (evs : list SearchEvent) :
  trim (effectiveQuery (searchRun evs)) = effectiveQuery (searchRun evs)
  /\ (forall v, effectiveQuery (searchRun (evs ++ [Typed v]))
                = effectiveQuery (searchRun evs))
  /\ effectiveQuery (searchRun (evs ++ [Applied])) = trim (searchText (searchRun evs))
  /\ effectiveQuery (searchRun (evs ++ [Reset])) = EmptyString
  /\ searchText (searchRun (evs ++ [Reset])) = EmptyString.
Proof.
  split.
  - unfold searchRun. apply searchRun_trimmed. simpl. apply trim_nil.
  - split; [intros v; now rewrite searchRun_snoc |].
    split; [now rewrite searchRun_snoc |].
    split; now rewrite searchRun_snoc.
Qed.

(** The fallback filter returns a subsequence of the loaded tenders (it
    keeps their order and invents none); applying it twice changes nothing,
    and two filters apply in either order with the same result. *)
Theorem visibleTenders_compose (tenders : list Tender) (st st' : FilterState) :
  sublist (visibleTenders tenders st) tenders
  /\ visibleTenders (visibleTenders tenders st) st = visibleTenders tenders st
  /\ visibleTenders (visibleTenders tenders st) st'
     = visibleTenders (visibleTenders tenders st') st.
Proof.
  rewrite !visibleTenders_keeps. split; [apply filter_sublist |].
  rewrite !filter_filter_andb. split; apply filter_ext_eq; intros t.
  - now destruct (keeps st t).
  - apply andb_comm.
Qed.

Lemma code_unit_compare_antisym (s t : string) :
  0 < code_unit_compare s t -> code_unit_compare t s <= 0.
Proof.
  unfold code_unit_compare. rewrite (String.compare_antisym s t).
  destruct (String.compare t s); simpl; lia.
Qed.

Lemma sortByPublication_sorted_witness :
  (forall s t, 0 < code_unit_compare s t -> code_unit_compare t s <= 0)
  /\ adjacent_pairs
       (fun a b => code_unit_compare (date_publication b) (date_publication a) <= 0)
       (sortByPublication code_unit_compare sample_items)
  /\ List.map date_publication (sortByPublication code_unit_compare sample_items)
     = ["2024-03-01"; "2024-01-05"; ""].
Proof.
  split; [exact code_unit_compare_antisym |]. split; [| reflexivity].
  apply (sortByPublication_sorted code_unit_compare code_unit_compare_antisym sample_items).
Defined.

End SearchBoxFacts.

(* ===================================================================== *)
(** * The helpers of the collector                                        *)
(* ===================================================================== *)

Section HelperFacts.
Import Helpers.

Lemma append_empty (s : string) : s +:+ EmptyString = s.
Proof.
  induction s as [|c s IH]; [reflexivity |].
  change (String c (s +:+ EmptyString) = String c s). now f_equal.
Qed.

Lemma slice_to_prefix (n : nat) (s : string) :
  exists rest, s = slice_to n s +:+ rest.
Proof.
  revert s. induction n as [|n IH]; intros s.
  - exists s. now destruct s.
  - destruct s as [|c s]; [exists EmptyString; reflexivity |].
    destruct (IH s) as [rest Hr]. exists rest.
    change (String c s = String c (slice_to n s +:+ rest)). now f_equal.
Qed.

(** [fmtDate] returns a prefix of its argument: the first ten characters
    when it starts with an ISO date, the whole argument otherwise; formatting
    a formatted date changes nothing. *)
Theorem fmtDate_prefix_idempotent (s : string) :
  fmtDate (fmtDate s) = fmtDate s
  /\ (exists rest, s = fmtDate s +:+ rest)
  /\ (iso_date_prefix s = true -> String.length (fmtDate s) = 10%nat)
  /\ (iso_date_prefix s = false -> fmtDate s = s).
Proof.
  unfold fmtDate.
  destruct (String.eqb_spec s "") as [->|Hne].
  { repeat split; [exists EmptyString; reflexivity | discriminate]. }
  destruct (iso_date_prefix s) eqn:Hiso.
  - split; [| split; [apply slice_to_prefix | split; [| discriminate]]].
    + do 10 (destruct s as [|? s]; [discriminate Hiso |]).
      cbn [slice_to String.eqb]. cbn [iso_date_prefix] in Hiso |- *.
      now rewrite Hiso.
    + intros _. do 10 (destruct s as [|? s]; [discriminate Hiso |]). reflexivity.
  - split; [| split; [exists EmptyString | split; [discriminate | reflexivity]]].
    + rewrite (proj2 (String.eqb_neq s "") Hne), Hiso. reflexivity.
    + symmetry. apply append_empty.
Qed.


(** The three outcomes of [clamp01]. *)
Lemma clamp01_cases (n : number) :
  clamp01 n = zero \/ clamp01 n = one
  \/ (clamp01 n = n /\ SFltb zero n = true /\ SFltb n one = true).
Proof.
  destruct n as [s|s| |s m e].
  - left. now destruct s.
  - destruct s; [now left | right; now left].
  - now left.
  - unfold clamp01, math_min. cbn [is_nan].
    destruct (SFltb (S754_finite s m e) one) eqn:Hlt.
    + destruct s; [now left |]. right; right. repeat split.
    + right; now left.
Qed.

Lemma clamp01_idempotent (n : number) : clamp01 (clamp01 n) = clamp01 n.
Proof.
  destruct (clamp01_cases n) as [-> | [-> | [Hn [Hpos Hlt]]]]; try reflexivity.
  rewrite Hn. exact Hn.
Qed.


(** [confidenceTone] rates [NaN] and every value at or below 0 as "bad" and
    every value at or above 1 as "good"; it depends on its argument through
    [clamp01] only. *)
Theorem confidenceTone_extremes (c : number) :
  (is_nan c = true -> confidenceTone c = bad)
  /\ (SFleb c zero = true -> confidenceTone c = bad)
  /\ (SFleb one c = true -> confidenceTone c = good)
  /\ confidenceTone (clamp01 c) = confidenceTone c.
Proof.
  split; [| split; [| split]].
  - destruct c; try discriminate. reflexivity.
  - destruct c as [s|s| |s m e]; try (destruct s); try discriminate;
      reflexivity.
  - destruct c as [s|s| |s m e]; try (destruct s); try discriminate;
      try reflexivity.
    intros Hle. unfold confidenceTone, clamp01, math_min. cbn [is_nan].
    assert (H : SFltb (S754_finite false m e) one = false).
    { unfold SFltb, SFleb in *. rewrite (SFcompare_antisym one (S754_finite false m e)).
      destruct (SFcompare one (S754_finite false m e)) as [[]|]; simpl;
        congruence. }
    rewrite H. reflexivity.
  - unfold confidenceTone. now rewrite clamp01_idempotent.
Qed.

End HelperFacts.

(* ===================================================================== *)
(** * The normalizer, continued                                           *)
(* ===================================================================== *)

Section NormalizerMoreFacts.
Import Collector Records.

Lemma probe_insert_other (fields : gmap string JsVal) (k : string) (v : JsVal)
    (aliases : list string) :
  ~ In k aliases ->
  probe (ItemRecord (<[k := v]> fields)) aliases = probe (ItemRecord fields) aliases.
Proof.
  induction aliases as [|a aliases IH]; intros Hk; [reflexivity |].
  cbn [probe get_prop bind].
  rewrite lookup_insert_ne by (intros ->; apply Hk; now left).
  destruct (truthy (default JUndefined (fields !! a))); [reflexivity |].
  apply IH. intros H. apply Hk. now right.
Qed.

(** A field under a key the normalizer does not probe has no effect on the
    normalized tender. *)
Theorem normalize_ignores_other_keys (fields : gmap string JsVal)
    (k : string) (v : JsVal) :
  ~ In k probed_keys ->
  normalizeTender (ItemRecord (<[k := v]> fields))
  = normalizeTender (ItemRecord fields).
Proof.
  intros Hk. unfold normalizeTender.
  assert (Hal : forall aliases, (forall a, In a aliases -> In a probed_keys) ->
            probe (ItemRecord (<[k := v]> fields)) aliases
            = probe (ItemRecord fields) aliases).
  { intros aliases Hsub. apply probe_insert_other. intros H. apply Hk, Hsub, H. }
  rewrite !Hal by (intros a Ha; unfold probed_keys; rewrite !in_app_iff; tauto).
  cbn [get_prop].
  rewrite !lookup_insert_ne
    by (intros ->; apply Hk; unfold probed_keys; rewrite !in_app_iff; simpl; tauto).
  reflexivity.
Qed.

Lemma normalize_ignores_other_keys_witness :
  ~ In "categorie_principale" probed_keys
  /\ normalizeTender
       (ItemRecord (<["categorie_principale" := JStr "TI"]> {[ "title" := JStr "AO" ]}))
     = normalizeTender (ItemRecord {[ "title" := JStr "AO" ]}).
Proof.
  assert (H : ~ In "categorie_principale" probed_keys).
  { unfold probed_keys. simpl. intros Hin.
    repeat (destruct Hin as [Hin|Hin]; [discriminate Hin |]). exact Hin. }
  split; [exact H |].
  apply (normalize_ignores_other_keys _ "categorie_principale" (JStr "TI") H).
Defined.

Lemma first_truthy_settled (fields : gmap string JsVal) (aliases : list string)
    (v : JsVal) :
  first_truthy fields aliases v -> settled v.
Proof.
  intros [(pre & k & post & _ & _ & Hk & ->) | [_ ->]]; [now left | now right].
Qed.

Lemma normalize_settled (t : RuntimeTender) :
  settled (titre t) -> settled (acheteur t) -> settled (pays t) ->
  settled (region t) -> settled (date_publication t) -> settled (date_cloture t) ->
  settled (portail t) -> settled (lien t) ->
  normalizeTender (ItemRecord (to_record t)) = Ok t.
Proof.
  destruct t as [i f1 f2 f3 f4 f5 f6 f7 f8 b]. unfold settled. cbn [titre acheteur pays region date_publication date_cloture portail lien].
  intros H1 H2 H3 H4 H5 H6 H7 H8.
  unfold normalizeTender, to_record.
  cbn [probe get_prop bind titre_aliases acheteur_aliases pays_aliases
       region_aliases date_publication_aliases date_cloture_aliases
       portail_aliases lien_aliases id titre acheteur pays region
       date_publication date_cloture portail lien est_ats].
  repeat (rewrite lookup_insert_eq || (rewrite lookup_insert_ne by discriminate)
          || rewrite lookup_empty).
  repeat match goal with
         | |- context [default JUndefined (Some ?x)] =>
             change (default JUndefined (Some x)) with x
         | |- context [default JUndefined (@None JsVal)] =>
             change (default JUndefined (@None JsVal)) with JUndefined
         end.
  destruct H1 as [-> | ->], H2 as [-> | ->], H3 as [-> | ->], H4 as [-> | ->],
    H5 as [-> | ->], H6 as [-> | ->], H7 as [-> | ->], H8 as [-> | ->];
    cbn; now destruct b.
Qed.

(** Normalizing is idempotent: the object the normalizer returns, handed to
    the normalizer again, comes back unchanged. *)
Theorem normalize_idempotent (fields : gmap string JsVal) :
  exists t, normalizeTender (ItemRecord fields) = Ok t
            /\ normalizeTender (ItemRecord (to_record t)) = Ok t.
Proof.
  destruct (normalize_record fields)
    as (t & Ht & H1 & H2 & H3 & H4 & H5 & H6 & H7 & H8 & _).
  exists t. split; [exact Ht |].
  apply normalize_settled; eapply first_truthy_settled; eassumption.
Qed.

End NormalizerMoreFacts.

(* ===================================================================== *)
(** * Portal option and quick filter                                      *)
(* ===================================================================== *)

Section MoreFilterFacts.
Import Samples.
Context {host : Host}.

Lemma keepsRow_portal (c p q : string) (qf : Dashboard.QuickField) (qv : string)
    (ss : Dashboard.SortState) (t : Dashboard.Tender) :
  p <> "ALL" ->
  keepsRow (Dashboard.mkViewState c p q qf qv ss) t = true <->
  keepsRow (Dashboard.mkViewState c "ALL" q qf qv ss) t = true
  /\ (toUpperCase (Dashboard.portal t) = toUpperCase p
      \/ toUpperCase (Dashboard.source t) = toUpperCase p).
Proof.
  intros Hp. unfold keepsRow; simpl.
  replace (str_eq p "ALL") with false by (symmetry; now apply String.eqb_neq).
  simpl. rewrite !andb_true_iff.
  rewrite (orb_true_iff (str_eq (toUpperCase (Dashboard.portal t)) (toUpperCase p))).
  rewrite !str_eq_iff. intuition auto.
Qed.

Lemma keeps_portal (p c : string) (a : bool) (q : string)
    (f : Collector.SearchField) (t : Collector.Tender) :
  p <> "ALL" ->
  keeps (Collector.mkFilterState p c a q f) t = true <->
  keeps (Collector.mkFilterState "ALL" c a q f) t = true
  /\ trim (Collector.portail t) = p.
Proof.
  intros Hp. unfold keeps; simpl.
  replace (str_eq p "ALL") with false by (symmetry; now apply String.eqb_neq).
  simpl. rewrite !andb_true_iff, str_eq_iff, !or_empty_id. intuition auto.
Qed.

(** With a portal option other than "ALL", the collector keeps, among the
    tenders the other conditions keep, exactly those whose trimmed portal is
    the option, and the dashboard exactly those whose portal or whose source
    equals the option up to letter case. *)
Theorem portal_filter (p : string) :
  p <> "ALL" ->
  (forall (tenders : list Collector.Tender) c a q f t,
      In t (Collector.visibleTenders tenders (Collector.mkFilterState p c a q f)) <->
      In t (Collector.visibleTenders tenders (Collector.mkFilterState "ALL" c a q f))
      /\ trim (Collector.portail t) = p)
  /\ (forall (tenders : list Dashboard.Tender) c q qf qv ss t,
         In t (Dashboard.filteredTenders tenders (Dashboard.mkViewState c p q qf qv ss)) <->
         In t (Dashboard.filteredTenders tenders (Dashboard.mkViewState c "ALL" q qf qv ss))
         /\ (toUpperCase (Dashboard.portal t) = toUpperCase p
             \/ toUpperCase (Dashboard.source t) = toUpperCase p)).
Proof.
  intros Hp. split.
  - intros tenders c a q f t.
    rewrite !visibleTenders_In, (keeps_portal p c a q f t Hp). tauto.
  - intros tenders c q qf qv ss t.
    rewrite !filteredTenders_In, (keepsRow_portal c p q qf qv ss t Hp). tauto.
Qed.

Lemma keepsRow_quick (c p q : string) (qf : Dashboard.QuickField) (qv : string)
    (ss : Dashboard.SortState) (t : Dashboard.Tender) :
  keepsRow (Dashboard.mkViewState c p q qf qv ss) t =
  keepsRow (Dashboard.mkViewState c p q qf "" ss) t
  && (String.eqb (trim qv) ""
      || includes (toLowerCase (Dashboard.nullish_empty (Dashboard.quick_of t qf)))
           (toLowerCase (trim qv))).
Proof. unfold keepsRow; simpl. rewrite trim_nil. simpl. now rewrite !andb_true_r. Qed.

(** The quick filter keeps, among the rows the other filters keep, exactly
    those whose chosen field, lower-cased, contains the trimmed, lower-cased
    value; a field that is [null] matches like the empty string, and a blank
    value filters nothing. *)
Theorem filteredTenders_quick_filter (tenders : list Dashboard.Tender)
    (c p q : string) (qf : Dashboard.QuickField) (qv : string)
    (ss : Dashboard.SortState) (t : Dashboard.Tender) :
  (trim qv <> EmptyString ->
   (In t (Dashboard.filteredTenders tenders (Dashboard.mkViewState c p q qf qv ss)) <->
    In t (Dashboard.filteredTenders tenders (Dashboard.mkViewState c p q qf "" ss))
    /\ is_substring (toLowerCase (trim qv))
         (toLowerCase (default EmptyString (Dashboard.quick_of t qf)))))
  /\ (trim qv = EmptyString ->
      (In t (Dashboard.filteredTenders tenders (Dashboard.mkViewState c p q qf qv ss)) <->
       In t (Dashboard.filteredTenders tenders (Dashboard.mkViewState c p q qf "" ss)))).
Proof.
  split; intros Hq; rewrite !filteredTenders_In, keepsRow_quick, andb_true_iff.
  - rewrite (eqb_empty_false _ Hq), orb_false_l, includes_spec.
    unfold Dashboard.nullish_empty. tauto.
  - rewrite Hq. simpl. tauto.
Qed.

End MoreFilterFacts.

Section MoreFilterExamples.
Import Samples.
#[local] Existing Instance AsciiText.ascii_host.

Lemma portal_filter_witness :
  "seao"%string <> "ALL"%string
  /\ (forall t,
         In t (Dashboard.filteredTenders sample_rows
                 (Dashboard.mkViewState "ALL" "seao" "" Dashboard.qf_title ""
                    Dashboard.initialSort)) <->
         In t (Dashboard.filteredTenders sample_rows
                 (Dashboard.mkViewState "ALL" "ALL" "" Dashboard.qf_title ""
                    Dashboard.initialSort))
         /\ (toUpperCase (Dashboard.portal t) = toUpperCase "seao"
             \/ toUpperCase (Dashboard.source t) = toUpperCase "seao"))
  /\ length (Dashboard.filteredTenders sample_rows
               (Dashboard.mkViewState "ALL" "seao" "" Dashboard.qf_title ""
                  Dashboard.initialSort)) = 3%nat.
Proof.
  split; [discriminate |]. split; [| reflexivity]. intros t.
  apply (portal_filter "seao"). discriminate.
Defined.

Lemma filteredTenders_quick_filter_witness :
  trim " odo " <> EmptyString
  /\ List.map Dashboard.title
       (Dashboard.filteredTenders sample_rows
          (Dashboard.mkViewState "ALL" "ALL" "" Dashboard.qf_title " odo "
             Dashboard.initialSort)) = ["Odoo"]
  /\ (In (sample_row 3 "Odoo" (Some "2024-01-05") (Some (num_of_Z 20)))
        (Dashboard.filteredTenders sample_rows
           (Dashboard.mkViewState "ALL" "ALL" "" Dashboard.qf_title " odo "
              Dashboard.initialSort)) <->
      In (sample_row 3 "Odoo" (Some "2024-01-05") (Some (num_of_Z 20)))
        (Dashboard.filteredTenders sample_rows
           (Dashboard.mkViewState "ALL" "ALL" "" Dashboard.qf_title ""
              Dashboard.initialSort))
      /\ is_substring (toLowerCase (trim " odo ")) (toLowerCase "Odoo")).
Proof.
  split; [vm_compute; discriminate |]. split; [reflexivity |].
  apply (filteredTenders_quick_filter sample_rows "ALL" "ALL" "" Dashboard.qf_title
           " odo " Dashboard.initialSort
           (sample_row 3 "Odoo" (Some "2024-01-05") (Some (num_of_Z 20)))).
  vm_compute; discriminate.
Defined.

End MoreFilterExamples.
